(** * ODL tomography geometry: [odl/tomo/geometry/geometry.py]

    A shallow embedding of the classes [Geometry], [DivergentBeamGeometry]
    and [AxisOrientedGeometry], and of the fragment of Python and numpy they
    are written in, followed by the properties of the geometry contract.

    Conventions of the embedding.
    - Python exceptions are values of [exn]; a call returns [Return v] or
      [Raise e] ([result]).  Constructors mutate the object under
      construction and are state transformers on its attribute dictionary
      ([ctor]).
    - numpy's float64 numbers are the real numbers extended with the IEEE
      special values ([float64]): rounding, overflow and the sign of zero are
      idealised away, division by zero and the arithmetic of infinities and
      NaN are kept.  Where a property rests on exact squares and products,
      it is stated for magnitudes inside [in_normal_range], in which float64
      neither overflows nor underflows and differs from the model by
      rounding only.
    - numpy arrays of rank 0, 1 and 2 are [ndarray]; a rank 2 array is the
      list of its rows. *)

From Stdlib Require Import Reals Lra RNsatz.
From stdpp Require Import gmap strings list.

(** ** Exceptions and results *)

Inductive exn : Set :=
  | TypeError
  | ValueError
  | AttributeError
  | IndexError
  (** numpy's [AxisError] *)
  | AxisError
  | NotImplementedError.

Inductive result (A : Type) : Type :=
  | Return (a : A)
  | Raise (e : exn).
Arguments Return {A} a.
Arguments Raise {A} e.

#[global] Instance result_ret : MRet result := @Return.
#[global] Instance result_bind : MBind result := λ A B f m,
  match m with
  | Return a => f a
  | Raise e => Raise e
  end.
#[global] Instance result_fmap : FMap result := λ A B f m,
  match m with
  | Return a => Return (f a)
  | Raise e => Raise e
  end.

Definition returns {A} (m : result A) : Prop := ∃ a, m = Return a.
Definition raises {A} (m : result A) : Prop := ∃ e, m = Raise e.

(** [sequence ms] runs the computations from left to right and stops at the
    first exception. *)
Fixpoint sequence {A} (ms : list (result A)) : result (list A) :=
  match ms with
  | [] => Return []
  | m :: ms' => a ← m; as' ← sequence ms'; Return (a :: as')
  end.

(** ** Floating point numbers *)

#[global] Instance Rle_decision (x y : R) : Decision (x <= y)%R := Rle_dec x y.
#[global] Instance Rlt_decision (x y : R) : Decision (x < y)%R := Rlt_dec x y.
#[global] Instance Req_decision : EqDecision R := Req_dec_T.

Module Float.

Inductive float64 : Type :=
  | Fin (x : R)
  | PInf
  | NInf
  | NaN.

Definition zero : float64 := Fin 0.
Definition one : float64 := Fin 1.

Definition is_finite (a : float64) : bool :=
  match a with Fin _ => true | _ => false end.

(** The product of an infinity ([neg] gives its sign) with the finite [x];
    also the quotient of the finite [x] by a zero: [inf * 0] and [0 / 0]
    are NaN. *)
Definition inf_signed (neg : bool) (x : R) : float64 :=
  match total_order_T x 0 with
  | inleft (left _) => if neg then PInf else NInf
  | inleft (right _) => NaN
  | inright _ => if neg then NInf else PInf
  end.

Definition fneg (a : float64) : float64 :=
  match a with
  | Fin x => Fin (- x)
  | PInf => NInf
  | NInf => PInf
  | NaN => NaN
  end.

Definition fadd (a b : float64) : float64 :=
  match a, b with
  | Fin x, Fin y => Fin (x + y)
  | NaN, _ | _, NaN => NaN
  | PInf, NInf | NInf, PInf => NaN
  | PInf, _ | _, PInf => PInf
  | NInf, _ | _, NInf => NInf
  end.

Definition fsub (a b : float64) : float64 := fadd a (fneg b).

Definition fmul (a b : float64) : float64 :=
  match a, b with
  | Fin x, Fin y => Fin (x * y)
  | NaN, _ | _, NaN => NaN
  | PInf, Fin y => inf_signed false y
  | NInf, Fin y => inf_signed true y
  | Fin x, PInf => inf_signed false x
  | Fin x, NInf => inf_signed true x
  | PInf, PInf | NInf, NInf => PInf
  | PInf, NInf | NInf, PInf => NInf
  end.

Definition fdiv (a b : float64) : float64 :=
  match a, b with
  | Fin x, Fin y => if Req_dec_T y 0 then inf_signed false x else Fin (x / y)
  | NaN, _ | _, NaN => NaN
  | Fin _, (PInf | NInf) => Fin 0
  | PInf, Fin y => if Rlt_dec y 0 then NInf else PInf
  | NInf, Fin y => if Rlt_dec y 0 then PInf else NInf
  | (PInf | NInf), (PInf | NInf) => NaN
  end.

Definition fsqrt (a : float64) : float64 :=
  match a with
  | Fin x => if Rlt_dec x 0 then NaN else Fin (sqrt x)
  | PInf => PInf
  | NInf | NaN => NaN
  end.

Definition fcos (a : float64) : float64 :=
  match a with Fin x => Fin (cos x) | _ => NaN end.

Definition fsin (a : float64) : float64 :=
  match a with Fin x => Fin (sin x) | _ => NaN end.

Definition fsum (l : list float64) : float64 := foldr fadd zero l.

End Float.
Export Float.

(** ** numpy arrays *)

Module Np.

(** Arrays of rank 0 (scalars), 1 and 2.  The rows of a rank 2 array all
    have the same length. *)
Inductive ndarray : Type :=
  | A0 (x : float64)
  | A1 (v : list float64)
  | A2 (m : list (list float64)).

Definition shape (a : ndarray) : list nat :=
  match a with
  | A0 _ => []
  | A1 v => [length v]
  | A2 m => [length m; length (default [] (head m))]
  end.

(** Broadcasting of two axes of lengths [a] and [b]: equal lengths, or one
    of them is 1 and is stretched to the other. *)
Definition bcast_len (a b : nat) : option nat :=
  if decide (a = b) then Some a
  else if decide (a = 1) then Some b
  else if decide (b = 1) then Some a
  else None.

Definition stretch {A} (n : nat) (l : list A) : list A :=
  match l with
  | [x] => replicate n x
  | _ => l
  end.

Definition bcast1 {A B C} (f : A → B → C) (u : list A) (v : list B)
    : result (list C) :=
  match bcast_len (length u) (length v) with
  | Some n => Return (zip_with f (stretch n u) (stretch n v))
  | None => Raise ValueError
  end.

Definition bcast2 {A B C} (f : A → B → C) (m : list (list A))
    (n : list (list B)) : result (list (list C)) :=
  match bcast_len (length m) (length n) with
  | Some k => sequence (zip_with (bcast1 f) (stretch k m) (stretch k n))
  | None => Raise ValueError
  end.

(** An elementwise binary operator ([+], [-], [/]) with broadcasting;
    operands that cannot be broadcast together raise [ValueError]. *)
Definition binop (f : float64 → float64 → float64) (a b : ndarray)
    : result ndarray :=
  match a, b with
  | A0 x, A0 y => Return (A0 (f x y))
  | A0 x, A1 v => Return (A1 (map (f x) v))
  | A1 u, A0 y => Return (A1 (map (λ x, f x y) u))
  | A0 x, A2 n => Return (A2 (map (map (f x)) n))
  | A2 m, A0 y => Return (A2 (map (map (λ x, f x y)) m))
  | A1 u, A1 v => A1 <$> bcast1 f u v
  | A1 u, A2 n => A2 <$> bcast2 f [u] n
  | A2 m, A1 v => A2 <$> bcast2 f m [v]
  | A2 m, A2 n => A2 <$> bcast2 f m n
  end.

Definition add : ndarray → ndarray → result ndarray := binop fadd.
Definition sub : ndarray → ndarray → result ndarray := binop fsub.

(** [a /= b]: the quotient is written back into [a], so the broadcast shape
    has to be the shape of [a]. *)
Definition idiv (a b : ndarray) : result ndarray :=
  q ← binop fdiv a b;
  if decide (shape q = shape a) then Return q else Raise ValueError.

(** [scalar * array]. *)
Definition scale (c : float64) (a : ndarray) : ndarray :=
  match a with
  | A0 x => A0 (fmul c x)
  | A1 v => A1 (map (fmul c) v)
  | A2 m => A2 (map (map (fmul c)) m)
  end.

Definition inner (u v : list float64) : float64 := fsum (zip_with fmul u v).

Definition column (j : nat) (m : list (list float64)) : list float64 :=
  map (λ row, default zero (row !! j)) m.

Definition transpose (m : list (list float64)) : list (list float64) :=
  map (λ j, column j m) (seq 0 (length (default [] (head m)))).

(** [a.dot(b)]: product with a scalar, inner product of two vectors,
    matrix-vector, vector-matrix and matrix-matrix product; [ValueError]
    when the contracted axes differ in length. *)
Definition dot (a b : ndarray) : result ndarray :=
  match a, b with
  | A0 x, _ => Return (scale x b)
  | _, A0 y => Return (scale y a)
  | A1 u, A1 v =>
      if decide (length u = length v) then Return (A0 (inner u v))
      else Raise ValueError
  | A2 m, A1 v =>
      if decide (Forall (λ row, length row = length v) m)
      then Return (A1 (map (λ row, inner row v) m))
      else Raise ValueError
  | A1 u, A2 n =>
      if decide (length u = length n)
      then Return (A1 (map (inner u) (transpose n)))
      else Raise ValueError
  | A2 m, A2 n =>
      if decide (Forall (λ row, length row = length n) m)
      then Return (A2 (map (λ row, map (inner row) (transpose n)) m))
      else Raise ValueError
  end.

Definition norm2 (v : list float64) : float64 :=
  fsqrt (fsum (map (λ x, fmul x x) v)).

(** [np.linalg.norm(a, axis=-1)]: the Euclidean norm along the trailing
    axis, which is removed from the shape; an array of rank 0 has no axis. *)
Definition linalg_norm_last (a : ndarray) : result ndarray :=
  match a with
  | A0 _ => Raise AxisError
  | A1 v => Return (A0 (norm2 v))
  | A2 m => Return (A1 (map norm2 m))
  end.

(** [np.linalg.norm(a)]: the Euclidean norm of the flattened array. *)
Definition linalg_norm (a : ndarray) : float64 :=
  match a with
  | A0 x => norm2 [x]
  | A1 v => norm2 v
  | A2 m => norm2 (concat m)
  end.

(** [np.outer(u, v)] and [np.eye(n)]. *)
Definition outer (u v : list float64) : list (list float64) :=
  map (λ x, map (fmul x) v) u.

Definition eye (n : nat) : list (list float64) :=
  map (λ i, map (λ j, if decide (i = j) then one else zero) (seq 0 n))
      (seq 0 n).

(** [float(a)]: scalars and arrays with exactly one element convert. *)
Definition to_float (a : ndarray) : result float64 :=
  match a with
  | A0 x | A1 [x] | A2 [[x]] => Return x
  | _ => Raise TypeError
  end.

End Np.
Export Np.

(** ** Collaborators of the geometry classes

    [IntervalProd] and [TensorGrid] (with its subclass [RegularGrid]) and the
    detector classes live in other modules of the package; the geometry
    classes use the members below. *)

Module TensorGrid.

Record t : Type := {
  coord_vectors : list (list float64);
  (** whether the grid is an instance of the subclass [RegularGrid] *)
  is_regular : bool;
}.

(** Modelled from the spec: the constructor of [TensorGrid], called with
    the unpacked coordinate vectors of a grid; its code is in
    [odl.discr.grid].  It builds a general tensor-product grid over the
    coordinate vectors. *)
Definition new (cvs : list (list float64)) : t :=
  {| coord_vectors := cvs; is_regular := false |}.

End TensorGrid.

Module IntervalProd.

Record t : Type := {
  ndim : nat;
  (** [value in self], the membership test [__contains__] *)
  contains : ndarray → bool;
  contains_set : TensorGrid.t → bool;
}.

End IntervalProd.

Module Detector.

Record t : Type := {
  params : IntervalProd.t;
  param_grid : option TensorGrid.t;
  surface : ndarray → result ndarray;
}.

End Detector.

(** ** Python values and objects *)

#[local] Set Warnings "-register-all".
Inductive pyval : Type :=
  | PyNone
  | PyInt (n : Z)
  | PyArray (a : ndarray)
  | PyDict (d : list (string * pyval))
  | PyIntervalProd (ip : IntervalProd.t)
  | PyTensorGrid (g : TensorGrid.t)
  | PyDetector (d : Detector.t)
  (** an instance of any other class, given by the name of the class *)
  | PyObject (cls : string).

(** An object is its attribute dictionary. *)
Abbreviation obj := (gmap string pyval).

Definition getattr (self : obj) (name : string) : result pyval :=
  match self !! name with
  | Some v => Return v
  | None => Raise AttributeError
  end.

Definition is_none (v : pyval) : bool :=
  match v with PyNone => true | _ => false end.

Definition isinstance_IntervalProd (v : pyval) : bool :=
  match v with PyIntervalProd _ => true | _ => false end.

Definition isinstance_TensorGrid (v : pyval) : bool :=
  match v with PyTensorGrid _ => true | _ => false end.

Definition isinstance_RegularGrid (v : pyval) : bool :=
  match v with PyTensorGrid g => TensorGrid.is_regular g | _ => false end.

(** [x in c].  Of the values of the model only parameter domains are
    containers of parameters; for the others the test is a [TypeError]. *)
Definition py_contains (c : pyval) (x : ndarray) : result bool :=
  match c with
  | PyIntervalProd ip => Return (IntervalProd.contains ip x)
  | _ => Raise TypeError
  end.

(** [a[i]] for an [i] that is not negative, where the classes go on with
    the result as a number.  For an array of rank 2 numpy answers with a row
    or with [IndexError]; the model does not follow it there and answers
    [TypeError].  The classes index the stored axis only, which has rank 2
    only on an object whose constructor call has raised. *)
Definition getitem (a : pyval) (i : nat) : result float64 :=
  match a with
  | PyArray (A1 v) =>
      match v !! i with Some x => Return x | None => Raise IndexError end
  | PyArray (A0 _) => Raise IndexError
  | _ => Raise TypeError
  end.

(** ** Constructors: state and exceptions *)

Definition ctor (A : Type) : Type := obj → result A * obj.

#[global] Instance ctor_ret : MRet ctor := λ A a self, (Return a, self).
#[global] Instance ctor_bind : MBind ctor := λ A B f m self,
  match m self with
  | (Return a, self') => f a self'
  | (Raise e, self') => (Raise e, self')
  end.

Definition setattr (name : string) (v : pyval) : ctor unit :=
  λ self, (Return (), <[name := v]> self).

Definition raise {A} (e : exn) : ctor A := λ self, (Raise e, self).

Definition lift {A} (m : result A) : ctor A := λ self, (m, self).

(** A read of [self] inside a constructor. *)
Definition read {A} (f : obj → result A) : ctor A := λ self, (f self, self).

(** The object handed to a constructor has no attribute yet. *)
Definition fresh : obj := ∅.

(** ** class Geometry *)

Module Geometry.

Definition __init__ (ndim : pyval) : ctor unit :=
  setattr "_ndim" ndim;;
  setattr "_implementation_cache" (PyDict []).

Definition ndim (self : obj) : result pyval := getattr self "_ndim".

Definition implementation_cache (self : obj) : result pyval :=
  getattr self "_implementation_cache".

(** The default of the property [motion_grid]. *)
Definition motion_grid (self : obj) : result pyval := Return PyNone.

(** The base class raises for every argument. *)
Definition det_to_src (self : obj) (mpar dpar : ndarray) (normalized : bool)
    : result ndarray :=
  Raise NotImplementedError.

Section Methods.
(** The members that the methods below look up on [self]: the abstract
    members, supplied by the class of the object, and the property
    [motion_grid], which a subclass may override. *)
Variable self_detector : obj → result pyval.
Variable self_det_refpoint : obj → ndarray → result ndarray.
Variable self_rotation_matrix : obj → ndarray → result ndarray.
Variable self_motion_grid : obj → result pyval.
(** The method [append] of the grid classes, called by the property [grid]
    on the motion grid with the detector grid as its operand.  Its code is
    in [odl.discr.grid], outside of this module: the property is modelled
    for every such method. *)
Variable TensorGrid_append : TensorGrid.t → pyval → result pyval.

(** [self.detector.surface(dpar)] *)
Definition detector_surface (self : obj) (dpar : ndarray)
    : result ndarray :=
  d ← self_detector self;
  match d with
  | PyDetector d => Detector.surface d dpar
  | _ => Raise AttributeError
  end.

Definition det_point_position (self : obj) (mpar dpar : ndarray)
    : result ndarray :=
  refpoint ← self_det_refpoint self mpar;
  rot ← self_rotation_matrix self mpar;
  surf ← detector_surface self dpar;
  rotated ← Np.dot rot surf;
  Np.add refpoint rotated.

Definition has_motion_sampling (self : obj) : result bool :=
  g ← self_motion_grid self; Return (negb (is_none g)).

Definition det_params (self : obj) : result pyval :=
  d ← self_detector self;
  match d with
  | PyDetector d => Return (PyIntervalProd (Detector.params d))
  | _ => Raise AttributeError
  end.

Definition det_grid (self : obj) : result pyval :=
  d ← self_detector self;
  match d with
  | PyDetector d =>
      Return (from_option PyTensorGrid PyNone (Detector.param_grid d))
  | _ => Raise AttributeError
  end.

Definition has_det_sampling (self : obj) : result bool :=
  g ← det_grid self; Return (negb (is_none g)).

(** [v.coord_vectors] *)
Definition get_coord_vectors (v : pyval) : result (list (list float64)) :=
  match v with
  | PyTensorGrid g => Return (TensorGrid.coord_vectors g)
  | _ => Raise AttributeError
  end.

Definition grid (self : obj) : result pyval :=
  mg ← self_motion_grid self;
  both_regular ←
    (if isinstance_RegularGrid mg
     then dg ← det_grid self; Return (isinstance_RegularGrid dg)
     else Return false);
  g ← (if both_regular : bool
       then self_motion_grid self
       else mg' ← self_motion_grid self;
            cvs ← get_coord_vectors mg';
            Return (PyTensorGrid (TensorGrid.new cvs)));
  match g with
  | PyTensorGrid g => dg ← det_grid self; TensorGrid_append g dg
  | _ => Raise AttributeError
  end.
End Methods.

End Geometry.

(** ** class DivergentBeamGeometry(Geometry) *)

Module DivergentBeamGeometry.

(** [isinstance(angle_intvl, IntervalProd) and angle_intvl.ndim == 1] *)
Definition is_interval (angle_intvl : pyval) : bool :=
  match angle_intvl with
  | PyIntervalProd ip => bool_decide (IntervalProd.ndim ip = 1)
  | _ => false
  end.

(** [angle_intvl.contains_set(agrid)], evaluated once [angle_intvl] is known
    to be an [IntervalProd] and [agrid] to be a [TensorGrid]. *)
Definition contains_set (angle_intvl agrid : pyval) : result bool :=
  match angle_intvl, agrid with
  | PyIntervalProd ip, PyTensorGrid g =>
      Return (IntervalProd.contains_set ip g)
  | PyIntervalProd _, _ => Raise TypeError
  | _, _ => Raise AttributeError
  end.

Definition __init__ (ndim angle_intvl detector agrid : pyval) : ctor unit :=
  (if negb (is_interval angle_intvl) then raise TypeError else mret ());;
  setattr "_motion_params" angle_intvl;;
  setattr "_motion_grid" agrid;;
  setattr "_detector" detector;;
  (if negb (is_none agrid) then
     (if negb (isinstance_TensorGrid agrid) then raise TypeError
      else mret ());;
     contained ← lift (contains_set angle_intvl agrid);
     if negb contained then raise ValueError else mret ()
   else mret ());;
  Geometry.__init__ ndim.

Definition motion_params (self : obj) : result pyval :=
  getattr self "_motion_params".

Definition motion_grid (self : obj) : result pyval :=
  getattr self "_motion_grid".

Definition detector (self : obj) : result pyval :=
  getattr self "_detector".

Section Methods.
(** The abstract methods, supplied by the class of the object, and the
    method [det_point_position] as that class resolves it. *)
Variable self_src_position : obj → ndarray → result ndarray.
Variable self_det_point_position : obj → ndarray → ndarray → result ndarray.

Definition det_to_src (self : obj) (mpar dpar : ndarray)
    (normalized : bool) : result ndarray :=
  mp ← motion_params self;
  m_in ← py_contains mp mpar;
  if negb m_in then Raise ValueError else
  dp ← Geometry.det_params detector self;
  d_in ← py_contains dp dpar;
  if negb d_in then Raise ValueError else
  src ← self_src_position self mpar;
  pos ← self_det_point_position self mpar dpar;
  vec ← Np.sub src pos;
  if normalized then norms ← Np.linalg_norm_last vec; Np.idiv vec norms
  else Return vec.
End Methods.

End DivergentBeamGeometry.

(** ** class AxisOrientedGeometry *)

Module AxisOrientedGeometry.

Definition axis (self : obj) : result pyval := getattr self "_axis".

(** [v.shape] *)
Definition get_shape (v : pyval) : result (list nat) :=
  match v with
  | PyArray a => Return (Np.shape a)
  | _ => Raise AttributeError
  end.

Definition __init__ (axis_arg : ndarray) : ctor unit :=
  normed ← lift (Np.binop fdiv axis_arg (A0 (Np.linalg_norm axis_arg)));
  setattr "_axis" (PyArray normed);;
  shp ← read (λ self, a ← axis self; get_shape a);
  if bool_decide (shp ≠ [3]) then raise ValueError else mret ().

(** [np.outer] flattens its arguments. *)
Definition ravel (v : pyval) : result (list float64) :=
  match v with
  | PyArray (A0 x) => Return [x]
  | PyArray (A1 v) => Return v
  | PyArray (A2 m) => Return (concat m)
  | _ => Raise TypeError
  end.

Section Methods.
(** The property [motion_params] of the geometry class that the mixin is
    combined with. *)
Variable self_motion_params : obj → result pyval.

Definition rotation_matrix (self : obj) (angle : ndarray)
    : result ndarray :=
  angle ← Np.to_float angle;
  mp ← self_motion_params self;
  a_in ← py_contains mp (A0 angle);
  if negb a_in then Raise ValueError else
  axis ← axis self;
  a2 ← getitem axis 2;
  a1 ← getitem axis 1;
  a0 ← getitem axis 0;
  let cross_mat := [ [zero; fneg a2; a1];
                     [a2; zero; fneg a0];
                     [fneg a1; a0; zero] ] in
  flat ← ravel axis;
  let dy_mat := Np.outer flat flat in
  let id_mat := Np.eye 3 in
  let cos_ang := fcos angle in
  let sin_ang := fsin angle in
  t ← Np.add (Np.scale cos_ang (A2 id_mat))
             (Np.scale (fsub one cos_ang) (A2 dy_mat));
  Np.add t (Np.scale sin_ang (A2 cross_mat)).
End Methods.

End AxisOrientedGeometry.

(** * Vocabulary of the specification *)

(** ** The constructor contract of [DivergentBeamGeometry] *)

(** The conditions of the constructor contract, in the words of the
    specification. *)
Definition one_dim_interval (angle_intvl : pyval) : Prop :=
  ∃ ip, angle_intvl = PyIntervalProd ip ∧ IntervalProd.ndim ip = 1.

Definition tensor_grid (agrid : pyval) : Prop :=
  ∃ g, agrid = PyTensorGrid g.

Definition grid_contained (angle_intvl agrid : pyval) : Prop :=
  ∃ ip g, angle_intvl = PyIntervalProd ip ∧ agrid = PyTensorGrid g
          ∧ IntervalProd.contains_set ip g = true.

Definition invalid_arguments (angle_intvl agrid : pyval) : Prop :=
  ¬ one_dim_interval angle_intvl
  ∨ (agrid ≠ PyNone
     ∧ (¬ tensor_grid agrid ∨ ¬ grid_contained angle_intvl agrid)).

(** An invalid-argument condition is one of the two exceptions that Python
    raises for an argument of the wrong type or of an unsuitable value. *)
Definition invalid_argument_condition (e : exn) : Prop :=
  e = TypeError ∨ e = ValueError.

(** The three attributes that the constructor sets before it looks at the
    grid. *)
Definition with_geometry_fields (angle_intvl detector agrid : pyval)
    (self : obj) : obj :=
  <["_detector" := detector]>
    (<["_motion_grid" := agrid]> (<["_motion_params" := angle_intvl]> self)).

(** ** Euclidean norms *)

(** The sum of the squares of a real vector. *)
Definition sumsq (v : list R) : R := foldr Rplus 0%R (map (λ x, (x * x)%R) v).

(** ** The normal range of float64

    The square of a float64 number overflows to infinity for magnitudes
    above about [2^512] and underflows to zero below about [2^-537], where
    the exact arithmetic of the model goes on.  The properties that rest on
    the norm of a vector are stated for vectors in the range below, in which
    no square, sum of squares or quotient by the norm leaves the normal
    numbers of float64: every component is zero or of magnitude at least
    [2^-500], some component is not zero, and the sum of the squares is at
    most [2^1000]. *)
Definition f64_small : R := (/ 2 ^ 500)%R.
Definition f64_large : R := (2 ^ 500)%R.

Definition in_normal_range (v : list R) : Prop :=
  Forall (λ x, x = 0 ∨ f64_small <= Rabs x)%R v
  ∧ ¬ Forall (λ x, x = 0%R) v
  ∧ (sumsq v <= f64_large * f64_large)%R.

(** Numbers whose products with each other do not overflow. *)
Definition products_finite (v : list R) : Prop :=
  Forall (λ x, Rabs x <= f64_large)%R v.

(** The array that the constructor of [AxisOrientedGeometry] stores for the
    vector [v]. *)
Definition normalized_axis (v : list float64) : list float64 :=
  map (λ x, fdiv x (Np.norm2 v)) v.

(** ** Rodrigues' rotation formula *)

(** The formula in the words of the specification: the matrix
    [cos(angle) I + (1 - cos(angle)) (axis (x) axis) + sin(angle) K], entry
    by entry, where [K] is the cross-product matrix of the axis. *)
Definition cross_product_matrix (ax ay az : float64) : list (list float64) :=
  [ [zero; fneg az; ay];
    [az; zero; fneg ax];
    [fneg ay; ax; zero] ].

Definition entry (m : list (list float64)) (i j : nat) : float64 :=
  default zero (m !! i ≫= (.!! j)).

Definition identity_matrix : list (list float64) :=
  [ [one; zero; zero];
    [zero; one; zero];
    [zero; zero; one] ].

Definition outer_product (ax ay az : float64) : list (list float64) :=
  [ [fmul ax ax; fmul ax ay; fmul ax az];
    [fmul ay ax; fmul ay ay; fmul ay az];
    [fmul az ax; fmul az ay; fmul az az] ].

Definition rodrigues (ax ay az angle : float64) : list (list float64) :=
  map (λ i,
    map (λ j,
      fadd (fadd (fmul (fcos angle) (entry identity_matrix i j))
                 (fmul (fsub one (fcos angle))
                       (entry (outer_product ax ay az) i j)))
           (fmul (fsin angle) (entry (cross_product_matrix ax ay az) i j)))
      (seq 0 3))
    (seq 0 3).

(** The determinant of a 3 x 3 matrix, expanded along the first row. *)
Definition det3 (m : list (list float64)) : float64 :=
  match m with
  | [ [a; b; c]; [d; e; f]; [g; h; i] ] =>
      fadd (fsub (fmul a (fsub (fmul e i) (fmul f h)))
                 (fmul b (fsub (fmul d i) (fmul f g))))
           (fmul c (fsub (fmul d h) (fmul e g)))
  | _ => NaN
  end.

(** * Sample geometries *)

(** Sample collaborators: the angle interval [[0, 1]], a grid inside it, a
    grid outside of it, and a detector with a flat one-point surface. *)
Definition in_unit_interval (x : float64) : bool :=
  match x with
  | Fin r => bool_decide (0 <= r)%R && bool_decide (r <= 1)%R
  | _ => false
  end.

Definition sample_interval : IntervalProd.t :=
  {| IntervalProd.ndim := 1;
     IntervalProd.contains := λ a,
       match a with
       | A0 x => in_unit_interval x
       | A1 v => forallb in_unit_interval v
       | A2 m => forallb (forallb in_unit_interval) m
       end;
     IntervalProd.contains_set := λ g,
       forallb (forallb in_unit_interval) (TensorGrid.coord_vectors g) |}.

Definition sample_grid_inside : TensorGrid.t :=
  {| TensorGrid.coord_vectors := [[Fin 0; Fin 1]];
     TensorGrid.is_regular := true |}.

Definition sample_grid_outside : TensorGrid.t :=
  {| TensorGrid.coord_vectors := [[Fin 0; Fin 2]];
     TensorGrid.is_regular := true |}.

Definition sample_detector : Detector.t :=
  {| Detector.params := sample_interval;
     Detector.param_grid := None;
     Detector.surface := λ _, Return (A1 [Fin 0; Fin 0]) |}.

(** A sample fan beam geometry in the plane over the angle interval
    [[0, 1]], without sampling grids: the source sits at a fixed point [s]
    and every detector point at the origin. *)
Definition sample_geometry : obj :=
  (DivergentBeamGeometry.__init__ (PyInt 2) (PyIntervalProd sample_interval)
     (PyDetector sample_detector) PyNone fresh).2.

Definition sample_src_position (s : list float64)
    : obj → ndarray → result ndarray :=
  λ _ _, Return (A1 s).

Definition sample_det_point_position : obj → ndarray → ndarray → result ndarray :=
  Geometry.det_point_position DivergentBeamGeometry.detector
    (λ _ _, Return (A1 [Fin 0; Fin 0]))
    (λ _ _, Return (A2 (Np.eye 2))).

(** Source positions for an array of parameter values, one row each. *)
Definition sample_src_positions (rows : list (list float64))
    : obj → ndarray → result ndarray :=
  λ _ _, Return (A2 rows).

(** A geometry object that only carries the axis [(0, 0, 1)], and the sample
    interval as its motion parameters. *)
Definition sample_axis_object : obj :=
  {[ "_axis" := PyArray (A1 [Fin 0; Fin 0; Fin 1]) ]}.

Definition sample_motion_params : obj → result pyval :=
  λ _, Return (PyIntervalProd sample_interval).

(** The sample fan beam geometry with sampling grids for the angle and for
    the detector. *)
Definition sample_detector_with_grid : Detector.t :=
  {| Detector.params := sample_interval;
     Detector.param_grid := Some sample_grid_inside;
     Detector.surface := λ _, Return (A1 [Fin 0; Fin 0]) |}.

Definition sample_geometry_with_grids : obj :=
  <["_implementation_cache" := PyDict []]>
    (<["_ndim" := PyInt 2]>
       (with_geometry_fields (PyIntervalProd sample_interval)
          (PyDetector sample_detector_with_grid)
          (PyTensorGrid sample_grid_inside) fresh)).

(** A sample cone beam geometry, a [DivergentBeamGeometry] combined with the
    mixin [AxisOrientedGeometry]: rotation about the axis [(0, 0, 2)] over
    the angle interval [[0, 1]], with the detector reference point at the
    origin. *)
Definition sample_cone_detector : Detector.t :=
  {| Detector.params := sample_interval;
     Detector.param_grid := None;
     Detector.surface := λ _, Return (A1 [Fin 1; Fin 0; Fin 0]) |}.

Definition sample_cone_geometry : obj :=
  (AxisOrientedGeometry.__init__ (A1 [Fin 0; Fin 0; Fin 2])
     (DivergentBeamGeometry.__init__ (PyInt 3)
        (PyIntervalProd sample_interval) (PyDetector sample_cone_detector)
        PyNone fresh).2).2.

Definition sample_cone_det_point_position
    : obj → ndarray → ndarray → result ndarray :=
  Geometry.det_point_position DivergentBeamGeometry.detector
    (λ _ _, Return (A1 [Fin 0; Fin 0; Fin 0]))
    (AxisOrientedGeometry.rotation_matrix DivergentBeamGeometry.motion_params).

(** A sample [append] for the grids: it joins the coordinate vectors of the
    two grids, the joined grid being regular when both are; an operand
    without coordinate vectors is an [AttributeError]. *)
Definition sample_append (g : TensorGrid.t) (other : pyval) : result pyval :=
  cvs ← Geometry.get_coord_vectors other;
  Return (PyTensorGrid
    {| TensorGrid.coord_vectors := TensorGrid.coord_vectors g ++ cvs;
       TensorGrid.is_regular :=
         TensorGrid.is_regular g && isinstance_RegularGrid other |}).

(** The angle interval [[-1, 1]], which holds the opposite of each of its
    angles. *)
Definition in_symmetric_interval (x : float64) : bool :=
  match x with
  | Fin r => bool_decide (-1 <= r)%R && bool_decide (r <= 1)%R
  | _ => false
  end.

Definition sample_symmetric_interval : IntervalProd.t :=
  {| IntervalProd.ndim := 1;
     IntervalProd.contains := λ a,
       match a with
       | A0 x => in_symmetric_interval x
       | A1 v => forallb in_symmetric_interval v
       | A2 m => forallb (forallb in_symmetric_interval) m
       end;
     IntervalProd.contains_set := λ g,
       forallb (forallb in_symmetric_interval) (TensorGrid.coord_vectors g) |}.

Definition sample_symmetric_motion_params : obj → result pyval :=
  λ _, Return (PyIntervalProd sample_symmetric_interval).

(** A detector point position that is the origin of the plane for all
    parameters, also for arrays of parameters. *)
Definition sample_det_point_at_origin
    : obj → ndarray → ndarray → result ndarray :=
  λ _ _ _, Return (A1 [Fin 0; Fin 0]).


(** * Properties of the geometry classes *)

(** ** Results *)

Lemma returns_Return {A} (a : A) : returns (Return a).
Proof. by exists a. Qed.

Lemma raises_Raise {A} (e : exn) : raises (@Raise A e).
Proof. by exists e. Qed.

Lemma not_returns_Raise {A} (e : exn) : ¬ returns (@Raise A e).
Proof. by intros [a ?]. Qed.

Lemma not_raises_Return {A} (a : A) : ¬ raises (Return a).
Proof. by intros [e ?]. Qed.

Lemma returns_or_raises {A} (m : result A) : returns m ∨ raises m.
Proof. destruct m; [left; by eexists | right; by eexists]. Qed.

Lemma returns_not_raises {A} (m : result A) : returns m ↔ ¬ raises m.
Proof.
  destruct m; split; intros H.
  - apply not_raises_Return.
  - apply returns_Return.
  - by apply not_returns_Raise in H.
  - destruct H. apply raises_Raise.
Qed.

(** ** The base class *)

(** C9: [det_to_src] of the base class [Geometry] fails with
    [NotImplementedError] for every object and all arguments, and never
    returns a value. *)
Theorem Geometry_det_to_src_not_implemented
    (self : obj) (mpar dpar : ndarray) (normalized : bool) :
  Geometry.det_to_src self mpar dpar normalized = Raise NotImplementedError
  ∧ ¬ returns (Geometry.det_to_src self mpar dpar normalized).
Proof. split; [reflexivity | apply not_returns_Raise]. Qed.

Section grid.
Variable self_detector : obj → result pyval.
Variable self_motion_grid : obj → result pyval.
Variable TensorGrid_append : TensorGrid.t → pyval → result pyval.

Let grid := Geometry.grid self_detector self_motion_grid TensorGrid_append.
Let det_grid := Geometry.det_grid self_detector.

Lemma grid_motion_grid_None self :
  self_motion_grid self = Return PyNone → grid self = Raise AttributeError.
Proof. intros H. unfold grid, Geometry.grid. by rewrite H. Qed.



Hypothesis append_None : ∀ g, raises (TensorGrid_append g PyNone).


End grid.



(** ** The constructor of [DivergentBeamGeometry] *)

Section DivergentBeamGeometry_init.
Import DivergentBeamGeometry.

Lemma is_interval_spec v : is_interval v = true ↔ one_dim_interval v.
Proof.
  unfold one_dim_interval. destruct v; simpl;
    try (split; [done | by intros (? & ? & ?)]).
  rewrite bool_decide_eq_true. split.
  - intros ?. by exists ip.
  - by intros (? & [= <-] & ?).
Qed.

Lemma isinstance_TensorGrid_spec v :
  isinstance_TensorGrid v = true ↔ tensor_grid v.
Proof.
  unfold tensor_grid. destruct v; simpl;
    try (split; [done | by intros (? & ?)]).
  split; [by eexists | done].
Qed.

Lemma is_none_spec v : is_none v = true ↔ v = PyNone.
Proof. by destruct v. Qed.

(** The run of the constructor, path by path. *)
Lemma init_not_interval ndim angle_intvl detector agrid self :
  is_interval angle_intvl = false →
  __init__ ndim angle_intvl detector agrid self = (Raise TypeError, self).
Proof. intros H. unfold __init__, mbind, ctor_bind. by rewrite H. Qed.

Lemma init_no_grid ndim angle_intvl detector self :
  is_interval angle_intvl = true →
  __init__ ndim angle_intvl detector PyNone self =
    (Return (),
     <["_implementation_cache" := PyDict []]>
       (<["_ndim" := ndim]>
          (with_geometry_fields angle_intvl detector PyNone self))).
Proof. intros H. unfold __init__, mbind, ctor_bind. by rewrite H. Qed.

Lemma init_not_tensor_grid ndim angle_intvl detector agrid self :
  is_interval angle_intvl = true →
  is_none agrid = false →
  isinstance_TensorGrid agrid = false →
  __init__ ndim angle_intvl detector agrid self =
    (Raise TypeError, with_geometry_fields angle_intvl detector agrid self).
Proof.
  intros H1 H2 H3. unfold __init__, mbind, ctor_bind.
  rewrite H1; simpl. rewrite H2; simpl. by rewrite H3.
Qed.

Lemma init_grid ndim ip detector g self :
  IntervalProd.ndim ip = 1 →
  __init__ ndim (PyIntervalProd ip) detector (PyTensorGrid g) self =
    if IntervalProd.contains_set ip g then
      (Return (),
       <["_implementation_cache" := PyDict []]>
         (<["_ndim" := ndim]>
            (with_geometry_fields (PyIntervalProd ip) detector
               (PyTensorGrid g) self)))
    else
      (Raise ValueError,
       with_geometry_fields (PyIntervalProd ip) detector (PyTensorGrid g)
         self).
Proof.
  intros H. unfold __init__, mbind, ctor_bind. simpl.
  rewrite bool_decide_eq_true_2 by done. simpl.
  by destruct (IntervalProd.contains_set ip g).
Qed.
Lemma init_outcome ndim angle_intvl detector agrid self :
  (__init__ ndim angle_intvl detector agrid self).1 =
    if negb (is_interval angle_intvl) then Raise TypeError
    else if is_none agrid then Return ()
    else if negb (isinstance_TensorGrid agrid) then Raise TypeError
    else contained ← contains_set angle_intvl agrid;
         if negb contained then Raise ValueError else Return ().
Proof.
  destruct (is_interval angle_intvl) eqn:Hi; simpl;
    [| by rewrite init_not_interval].
  destruct (proj1 (is_interval_spec _) Hi) as (ip & -> & Hdim).
  destruct agrid as [| | | | |g| |];
    try by rewrite init_not_tensor_grid.
  - by rewrite init_no_grid.
  - rewrite init_grid by done. simpl.
    by destruct (IntervalProd.contains_set ip g).
Qed.

Lemma contains_set_spec angle_intvl agrid :
  is_interval angle_intvl = true →
  isinstance_TensorGrid agrid = true →
  ∃ b, contains_set angle_intvl agrid = Return b
       ∧ (b = true ↔ grid_contained angle_intvl agrid).
Proof.
  intros (ip & -> & _)%is_interval_spec (g & ->)%isinstance_TensorGrid_spec.
  exists (IntervalProd.contains_set ip g). split; [done |].
  unfold grid_contained. split.
  - intros ?. by exists ip, g.
  - by intros (? & ? & [= <-] & [= <-] & ?).
Qed.
End DivergentBeamGeometry_init.

(** C5: the constructor of [DivergentBeamGeometry] fails exactly when the
    angle domain is not a 1-dimensional interval, or a grid is supplied that
    is not a tensor-product grid or is not contained in the angle domain.
    The failure is an invalid-argument condition: [TypeError] for the first
    two, [ValueError] for a grid outside the domain.  Otherwise the
    construction succeeds. *)
Theorem DivergentBeamGeometry_init_fails_iff
    (ndim angle_intvl detector agrid : pyval) (self : obj) :
  let outcome :=
    (DivergentBeamGeometry.__init__ ndim angle_intvl detector agrid self).1 in
  (raises outcome ↔ invalid_arguments angle_intvl agrid)
  ∧ (∀ e, outcome = Raise e → invalid_argument_condition e)
  ∧ (¬ invalid_arguments angle_intvl agrid → outcome = Return ())
  ∧ (¬ one_dim_interval angle_intvl → outcome = Raise TypeError)
  ∧ (one_dim_interval angle_intvl → agrid ≠ PyNone → ¬ tensor_grid agrid →
     outcome = Raise TypeError)
  ∧ (one_dim_interval angle_intvl → tensor_grid agrid →
     ¬ grid_contained angle_intvl agrid → outcome = Raise ValueError).
Proof.
  simpl. rewrite init_outcome. unfold invalid_arguments.
  destruct (DivergentBeamGeometry.is_interval angle_intvl) eqn:Hi; simpl.
  - assert (one_dim_interval angle_intvl) as HP by by apply is_interval_spec.
    destruct (is_none agrid) eqn:Hn; simpl.
    + apply is_none_spec in Hn as ->.
      split_and!;
        [ split; [by intros ?%not_raises_Return | tauto]
        | done | done | tauto | tauto | by intros _ [? ?] ].
    + assert (agrid ≠ PyNone) as HN by (intros ?%is_none_spec; congruence).
      destruct (isinstance_TensorGrid agrid) eqn:Ht; simpl.
      * assert (tensor_grid agrid) as HT
          by by apply isinstance_TensorGrid_spec.
        destruct (contains_set_spec _ _ Hi Ht) as (b & -> & Hb).
        destruct b; simpl.
        -- assert (grid_contained angle_intvl agrid) as HC by by apply Hb.
           split_and!;
             [ split; [by intros ?%not_raises_Return | tauto]
             | done | done | tauto | tauto | tauto ].
        -- assert (¬ grid_contained angle_intvl agrid) as HC
             by (intros ?%Hb; done).
           split_and!;
             [ split; [tauto | intros _; apply raises_Raise]
             | by intros e [= <-]; right | tauto | tauto | tauto | done ].
      * assert (¬ tensor_grid agrid) as HT
          by (intros ?%isinstance_TensorGrid_spec; congruence).
        split_and!;
          [ split; [tauto | intros _; apply raises_Raise]
          | by intros e [= <-]; left | tauto | tauto | done | tauto ].
  - assert (¬ one_dim_interval angle_intvl) as HP
      by (intros ?%is_interval_spec; congruence).
    split_and!;
      [ split; [tauto | intros _; apply raises_Raise]
      | by intros e [= <-]; left | tauto | done | tauto | tauto ].
Qed.

Lemma in_unit_interval_Fin (r : R) :
  (0 <= r)%R → (r <= 1)%R → in_unit_interval (Fin r) = true.
Proof.
  intros H0 H1. simpl. by rewrite !bool_decide_eq_true_2.
Qed.

Lemma in_unit_interval_Fin_above (r : R) :
  (1 < r)%R → in_unit_interval (Fin r) = false.
Proof.
  intros H. simpl. rewrite (bool_decide_eq_false_2 (r <= 1)%R) by lra.
  apply andb_false_r.
Qed.

#[local] Arguments in_unit_interval : simpl never.

Lemma sample_grid_outside_not_contained :
  IntervalProd.contains_set sample_interval sample_grid_outside = false.
Proof.
  simpl. rewrite (in_unit_interval_Fin_above 2) by lra.
  by rewrite andb_false_r.
Qed.

Lemma sample_grid_inside_contained :
  IntervalProd.contains_set sample_interval sample_grid_inside = true.
Proof.
  simpl. rewrite (in_unit_interval_Fin 0), (in_unit_interval_Fin 1) by lra.
  done.
Qed.

(** C6, as stated, fails: with a grid that lies outside the angle interval
    the constructor raises [ValueError] after it has set the attributes
    [_motion_params], [_motion_grid] and [_detector] of the object. *)
Lemma DivergentBeamGeometry_init_failure_after_mutation :
  let run :=
    DivergentBeamGeometry.__init__ (PyInt 2) (PyIntervalProd sample_interval)
      (PyDetector sample_detector) (PyTensorGrid sample_grid_outside) fresh in
  run.1 = Raise ValueError
  ∧ run.2 !! "_motion_params" = Some (PyIntervalProd sample_interval)
  ∧ run.2 !! "_motion_grid" = Some (PyTensorGrid sample_grid_outside)
  ∧ run.2 !! "_detector" = Some (PyDetector sample_detector)
  ∧ run.2 ≠ fresh.
Proof.
  simpl. rewrite init_grid by done.
  rewrite sample_grid_outside_not_contained. simpl.
  unfold with_geometry_fields. split_and!; done.
Qed.

(** C6, amended: a failure on the angle domain leaves the object as it was;
    a failure on the grid happens after the three attributes
    [_motion_params], [_motion_grid] and [_detector] have been set, and
    before the attributes of the base class are. *)
Theorem DivergentBeamGeometry_init_failure_state
    (ndim angle_intvl detector agrid : pyval) (self self' : obj) (e : exn) :
  DivergentBeamGeometry.__init__ ndim angle_intvl detector agrid self
    = (Raise e, self') →
  (¬ one_dim_interval angle_intvl ∧ e = TypeError ∧ self' = self)
  ∨ (one_dim_interval angle_intvl ∧ agrid ≠ PyNone
     ∧ self' = with_geometry_fields angle_intvl detector agrid self
     ∧ self' !! "_ndim" = self !! "_ndim"
     ∧ self' !! "_implementation_cache" = self !! "_implementation_cache").
Proof.
  intros Hrun.
  destruct (DivergentBeamGeometry.is_interval angle_intvl) eqn:Hi.
  - right. pose proof (proj1 (is_interval_spec _) Hi) as Hone.
    destruct Hone as (ip & -> & Hdim).
    assert (∀ a, with_geometry_fields (PyIntervalProd ip) detector a self
                   !! "_ndim" = self !! "_ndim"
                 ∧ with_geometry_fields (PyIntervalProd ip) detector a self
                   !! "_implementation_cache"
                   = self !! "_implementation_cache") as Hkeep.
    { intros a. unfold with_geometry_fields.
      by rewrite !lookup_insert_ne. }
    destruct agrid as [| | | | |g| |];
      try (rewrite init_not_tensor_grid in Hrun by done;
           injection Hrun as _ <-;
           split_and!; [by apply is_interval_spec | done | done
                       | apply Hkeep | apply Hkeep]).
    + by rewrite init_no_grid in Hrun.
    + rewrite init_grid in Hrun by done.
      destruct (IntervalProd.contains_set ip g); [done |].
      injection Hrun as _ <-.
      split_and!; [by apply is_interval_spec | done | done
                  | apply Hkeep | apply Hkeep].
  - left. rewrite init_not_interval in Hrun by done.
    injection Hrun as <- <-. split_and!; [| done | done].
    intros ?%is_interval_spec. congruence.
Qed.

Lemma DivergentBeamGeometry_init_failure_state_witness :
  (¬ one_dim_interval (PyIntervalProd sample_interval)
   ∧ ValueError = TypeError
   ∧ with_geometry_fields (PyIntervalProd sample_interval)
       (PyDetector sample_detector) (PyTensorGrid sample_grid_outside) fresh
     = fresh)
  ∨ (one_dim_interval (PyIntervalProd sample_interval)
     ∧ PyTensorGrid sample_grid_outside ≠ PyNone
     ∧ with_geometry_fields (PyIntervalProd sample_interval)
         (PyDetector sample_detector) (PyTensorGrid sample_grid_outside) fresh
       = with_geometry_fields (PyIntervalProd sample_interval)
           (PyDetector sample_detector) (PyTensorGrid sample_grid_outside)
           fresh
     ∧ with_geometry_fields (PyIntervalProd sample_interval)
         (PyDetector sample_detector) (PyTensorGrid sample_grid_outside) fresh
       !! "_ndim" = fresh !! "_ndim"
     ∧ with_geometry_fields (PyIntervalProd sample_interval)
         (PyDetector sample_detector) (PyTensorGrid sample_grid_outside) fresh
       !! "_implementation_cache" = fresh !! "_implementation_cache").
Proof.
  apply (DivergentBeamGeometry_init_failure_state (PyInt 2)).
  rewrite init_grid by reflexivity.
  rewrite sample_grid_outside_not_contained. reflexivity.
Defined.

(** The property [grid] on the sample geometries: without an angle grid it
    raises, with both grids it is the joined regular grid. *)
Lemma sample_geometry_with_grids_init :
  DivergentBeamGeometry.__init__ (PyInt 2) (PyIntervalProd sample_interval)
    (PyDetector sample_detector_with_grid) (PyTensorGrid sample_grid_inside)
    fresh
  = (Return (), sample_geometry_with_grids).
Proof.
  rewrite init_grid by done. by rewrite sample_grid_inside_contained.
Qed.

Lemma sample_geometry_grid :
  Geometry.grid DivergentBeamGeometry.detector
    DivergentBeamGeometry.motion_grid sample_append sample_geometry
  = Raise AttributeError.
Proof. reflexivity. Qed.

Lemma sample_geometry_with_grids_grid :
  Geometry.grid DivergentBeamGeometry.detector
    DivergentBeamGeometry.motion_grid sample_append
    sample_geometry_with_grids
  = Return (PyTensorGrid
      {| TensorGrid.coord_vectors := [[Fin 0; Fin 1]; [Fin 0; Fin 1]];
         TensorGrid.is_regular := true |}).
Proof. reflexivity. Qed.

(** ** Float and array arithmetic on finite values *)

Section finite_arithmetic.
Local Open Scope R_scope.

Lemma sumsq_nonneg v : 0 <= sumsq v.
Proof.
  induction v as [|x v IH]; simpl; [unfold sumsq; simpl; lra |].
  unfold sumsq in *. simpl. nra.
Qed.

Lemma sumsq_zero v : sumsq v = 0 → Forall (λ x, x = 0) v.
Proof.
  induction v as [|x v IH]; [constructor |].
  unfold sumsq in *. simpl. intros H.
  pose proof (sumsq_nonneg v) as Hv. unfold sumsq in Hv.
  constructor; [nra | apply IH; nra].
Qed.

Lemma sumsq_scale c v :
  c ≠ 0 → sumsq (map (λ x, x / c) v) = sumsq v / (c * c).
Proof.
  intros Hc. induction v as [|x v IH]; unfold sumsq in *; simpl.
  - unfold Rdiv. lra.
  - rewrite IH. by field.
Qed.

Lemma fsqrt_Fin x : 0 <= x → fsqrt (Fin x) = Fin (sqrt x).
Proof. intros H. simpl. destruct (Rlt_dec x 0); [lra | done]. Qed.

Lemma fdiv_Fin x y : y ≠ 0 → fdiv (Fin x) (Fin y) = Fin (x / y).
Proof. intros H. simpl. by destruct (Req_dec_T y 0). Qed.

Lemma fdiv_zero_by_zero x y : x = 0 → y = 0 → fdiv (Fin x) (Fin y) = NaN.
Proof.
  intros -> ->. simpl. destruct (Req_dec_T 0 0); [| done].
  unfold inf_signed. destruct (total_order_T 0 0) as [[?|?]|?]; [lra | done | lra].
Qed.

Lemma fsum_squares_Fin v :
  fsum (map (λ x, fmul x x) (map Fin v)) = Fin (sumsq v).
Proof.
  induction v as [|x v IH]; [done |].
  unfold fsum, sumsq in *. simpl. by rewrite IH.
Qed.

Lemma norm2_Fin v : Np.norm2 (map Fin v) = Fin (sqrt (sumsq v)).
Proof.
  unfold Np.norm2. rewrite fsum_squares_Fin.
  apply fsqrt_Fin, sumsq_nonneg.
Qed.

Lemma map_fdiv_Fin v n :
  n ≠ 0 →
  map (λ x, fdiv x (Fin n)) (map Fin v) = map Fin (map (λ x, x / n) v).
Proof.
  intros Hn. rewrite !map_map. apply map_ext. intros x.
  by apply fdiv_Fin.
Qed.

Lemma zip_with_fsub_Fin u v :
  zip_with fsub (map Fin u) (map Fin v) = map Fin (zip_with Rminus u v).
Proof.
  revert v. induction u as [|x u IH]; intros [|y v]; simpl; [done.. |].
  by rewrite IH.
Qed.


Lemma sqrt_sumsq_nonzero v : sumsq v ≠ 0 → sqrt (sumsq v) ≠ 0.
Proof.
  intros Hv Hs. apply sqrt_eq_0 in Hs; [done | apply sumsq_nonneg].
Qed.

(** A vector that is not zero is turned into a unit vector by the division
    by its norm. *)
Lemma normalized_unit v :
  sumsq v ≠ 0 →
  sumsq (map (λ x, x / sqrt (sumsq v)) v) = 1.
Proof.
  intros Hv. rewrite sumsq_scale by by apply sqrt_sumsq_nonzero.
  rewrite sqrt_sqrt by apply sumsq_nonneg. by field.
Qed.

(** The normal range: the bounds, and vectors of small integers. *)
Lemma f64_large_ge_32 : 32 <= f64_large.
Proof.
  unfold f64_large. replace 32 with (2 ^ 5) by (simpl; lra).
  apply Rle_pow; [lra | lia].
Qed.

Lemma f64_small_le_1 : f64_small <= 1.
Proof.
  unfold f64_small. pose proof f64_large_ge_32 as H. unfold f64_large in H.
  rewrite <- Rinv_1. apply Rinv_le_contravar; lra.
Qed.

Lemma in_normal_range_intro v :
  Forall (λ x, x = 0 ∨ 1 <= Rabs x) v →
  ¬ Forall (λ x, x = 0) v →
  sumsq v <= 1024 →
  in_normal_range v.
Proof.
  intros Hc Hnz Hs. split_and!; [| done |].
  - eapply Forall_impl; [done |]. intros x [-> | Hx]; [by left | right].
    pose proof f64_small_le_1. lra.
  - pose proof f64_large_ge_32. nra.
Qed.

Lemma in_normal_range_sumsq v : in_normal_range v → sumsq v ≠ 0.
Proof. intros (_ & Hnz & _) Hz%sumsq_zero. done. Qed.
End finite_arithmetic.

(** ** Broadcasting of operands of the same shape *)

Lemma stretch_same {A} (n : nat) (l : list A) : length l = n → stretch n l = l.
Proof. intros <-. by destruct l as [|x [|y l]]. Qed.

Lemma bcast1_same_length {A B C} (f : A → B → C) u v :
  length u = length v → Np.bcast1 f u v = Return (zip_with f u v).
Proof.
  intros H. unfold Np.bcast1, Np.bcast_len.
  rewrite decide_True by done.
  by rewrite !stretch_same.
Qed.

Lemma sub_vectors u v :
  length u = length v →
  Np.sub (A1 u) (A1 v) = Return (A1 (zip_with fsub u v)).
Proof.
  intros H. unfold Np.sub. simpl. by rewrite bcast1_same_length.
Qed.

Lemma add_vectors u v :
  length u = length v →
  Np.add (A1 u) (A1 v) = Return (A1 (zip_with fadd u v)).
Proof.
  intros H. unfold Np.add. simpl. by rewrite bcast1_same_length.
Qed.

Lemma idiv_vector_scalar v n :
  Np.idiv (A1 v) (A0 n) = Return (A1 (map (λ x, fdiv x n) v)).
Proof.
  unfold Np.idiv. simpl. rewrite decide_True; [done |].
  by rewrite length_map.
Qed.

(** Shape errors are the only exceptions of the array operations. *)
Lemma sequence_Raise {A} (ms : list (result A)) e :
  sequence ms = Raise e → Raise e ∈ ms.
Proof.
  induction ms as [|m ms IH]; simpl; [done |].
  destruct m as [a|e']; simpl.
  - destruct (sequence ms) as [l|e'']; simpl; [done |].
    intros [= ->]. right. by apply IH.
  - intros [= ->]. left.
Qed.

Lemma bcast1_Raise {A B C} (f : A → B → C) u v e :
  Np.bcast1 f u v = Raise e → e = ValueError.
Proof. unfold Np.bcast1. destruct Np.bcast_len; congruence. Qed.

Lemma bcast2_Raise {A B C} (f : A → B → C) m n e :
  Np.bcast2 f m n = Raise e → e = ValueError.
Proof.
  unfold Np.bcast2. destruct Np.bcast_len as [k|]; [| congruence].
  intros H%sequence_Raise.
  apply elem_of_lookup_zip_with in H as (i & u & v & Hraise & _ & _).
  symmetry in Hraise. by apply bcast1_Raise in Hraise.
Qed.

Lemma binop_Raise f a b e : Np.binop f a b = Raise e → e = ValueError.
Proof.
  destruct a, b; simpl; try done;
    match goal with
    | |- context [Np.bcast1 ?f ?u ?v] =>
        destruct (Np.bcast1 f u v) eqn:H; simpl; [done |];
        apply bcast1_Raise in H; congruence
    | |- context [Np.bcast2 ?f ?u ?v] =>
        destruct (Np.bcast2 f u v) eqn:H; simpl; [done |];
        apply bcast2_Raise in H; congruence
    end.
Qed.

Lemma dot_Raise a b e : Np.dot a b = Raise e → e = ValueError.
Proof.
  destruct a, b; simpl; try done; case_decide; congruence.
Qed.

Lemma dot_matrix_vector rot surf :
  Forall (λ row, length row = length surf) rot →
  Np.dot (A2 rot) (A1 surf) = Return (A1 (map (λ row, Np.inner row surf) rot)).
Proof. intros H. simpl. by rewrite decide_True. Qed.

(** ** The detector point position *)

(** C8, as stated, fails: the method calls [rotation_matrix], and the one
    of [AxisOrientedGeometry] checks the angle; in a geometry that combines
    the two classes [det_point_position] raises the [ValueError] of that
    domain check for a motion parameter outside the angle interval. *)
Lemma Geometry_det_point_position_domain_error :
  IntervalProd.contains sample_interval (A0 (Fin 2)) = false
  ∧ sample_cone_det_point_position sample_cone_geometry (A0 (Fin 2))
      (A0 (Fin 0))
    = Raise ValueError.
Proof.
  assert (IntervalProd.contains sample_interval (A0 (Fin 2)) = false) as Hout
    by (apply in_unit_interval_Fin_above; lra).
  split; [done |].
  assert (DivergentBeamGeometry.motion_params sample_cone_geometry
          = Return (PyIntervalProd sample_interval)) as Hm by reflexivity.
  unfold sample_cone_det_point_position, Geometry.det_point_position,
    AxisOrientedGeometry.rotation_matrix.
  cbn [mbind result_bind Np.to_float]. rewrite Hm.
  cbn [mbind result_bind py_contains]. by rewrite Hout.
Qed.

(** C8, amended: [det_point_position] is the detector reference point plus
    the rotation matrix applied to the surface point, whenever the three
    calls return arrays of fitting shapes; there is no hypothesis on [mpar]
    and [dpar], which may lie outside the parameter domains.  The method
    has no domain check of its own: an exception that it raises is either
    the exception of one of the three calls or the [ValueError] of numpy
    for arrays whose shapes do not fit. *)
Theorem Geometry_det_point_position_formula
    (self_detector : obj → result pyval)
    (self_det_refpoint self_rotation_matrix : obj → ndarray → result ndarray)
    (self : obj) (mpar dpar : ndarray) :
  let position :=
    Geometry.det_point_position self_detector self_det_refpoint
      self_rotation_matrix self mpar dpar in
  let surface :=
    Geometry.detector_surface self_detector self dpar in
  (∀ refpoint rot surf,
     self_det_refpoint self mpar = Return (A1 refpoint) →
     self_rotation_matrix self mpar = Return (A2 rot) →
     surface = Return (A1 surf) →
     length rot = length refpoint →
     Forall (λ row, length row = length surf) rot →
     position =
       Return (A1 (zip_with fadd refpoint
                     (map (λ row, Np.inner row surf) rot))))
  ∧ (∀ e, position = Raise e →
       self_det_refpoint self mpar = Raise e
       ∨ self_rotation_matrix self mpar = Raise e
       ∨ surface = Raise e
       ∨ (e = ValueError
          ∧ returns (self_det_refpoint self mpar)
          ∧ returns (self_rotation_matrix self mpar)
          ∧ returns surface)).
Proof.
  simpl. unfold Geometry.det_point_position. split.
  - intros refpoint rot surf -> -> -> Hlen Hrows. simpl.
    rewrite decide_True by done. simpl.
    apply add_vectors. by rewrite length_map.
  - intros e.
    destruct (self_det_refpoint self mpar) as [p|e1]; simpl; [| by left].
    destruct (self_rotation_matrix self mpar) as [r|e2]; simpl;
      [| by right; left].
    destruct (Geometry.detector_surface self_detector self dpar) as [s|e3];
      simpl; [| by right; right; left].
    intros H. right; right; right.
    split; [| by split_and!; eexists].
    destruct (Np.dot r s) as [rs|e4] eqn:Hdot; simpl in H.
    + by apply binop_Raise in H.
    + apply dot_Raise in Hdot. congruence.
Qed.

(** ** The ray direction of a divergent beam geometry *)

#[local] Arguments Np.sub : simpl never.
#[local] Arguments Np.add : simpl never.
#[local] Arguments Np.idiv : simpl never.
#[local] Arguments Np.linalg_norm_last : simpl never.

Section det_to_src.
Import DivergentBeamGeometry.

(** An object on which the constructor has returned has its attributes
    set from the arguments. *)
Lemma init_Return_fields ndim angle_intvl det agrid self0 self :
  __init__ ndim angle_intvl det agrid self0 = (Return (), self) →
  motion_params self = Return angle_intvl
  ∧ motion_grid self = Return agrid
  ∧ detector self = Return det
  ∧ Geometry.ndim self = Return ndim.
Proof.
  intros Hrun.
  destruct (is_interval angle_intvl) eqn:Hi;
    [| by rewrite init_not_interval in Hrun].
  pose proof (proj1 (is_interval_spec _) Hi) as (ip & -> & Hdim).
  destruct agrid as [| | | | |g| |];
    try (by rewrite init_not_tensor_grid in Hrun).
  - rewrite init_no_grid in Hrun by done. injection Hrun as <-.
    unfold motion_params, motion_grid, detector, Geometry.ndim, getattr,
      with_geometry_fields.
    by simplify_map_eq.
  - rewrite init_grid in Hrun by done.
    destruct (IntervalProd.contains_set ip g); [| done].
    injection Hrun as <-.
    unfold motion_params, motion_grid, detector, Geometry.ndim, getattr,
      with_geometry_fields.
    by simplify_map_eq.
Qed.

Variable self_src_position : obj → ndarray → result ndarray.
Variable self_det_point_position : obj → ndarray → ndarray → result ndarray.

Let det_to_src := det_to_src self_src_position self_det_point_position.

Lemma det_to_src_outside self mp d mpar dpar normalized :
  motion_params self = Return (PyIntervalProd mp) →
  detector self = Return (PyDetector d) →
  IntervalProd.contains mp mpar
    && IntervalProd.contains (Detector.params d) dpar = false →
  det_to_src self mpar dpar normalized = Raise ValueError.
Proof.
  intros Hm Hd Hin. unfold det_to_src, DivergentBeamGeometry.det_to_src.
  rewrite Hm. simpl.
  destruct (IntervalProd.contains mp mpar); simpl; [| done].
  unfold Geometry.det_params. rewrite Hd. simpl.
  simpl in Hin. by rewrite Hin.
Qed.

Lemma det_to_src_inside self mp d mpar dpar normalized src pos :
  motion_params self = Return (PyIntervalProd mp) →
  detector self = Return (PyDetector d) →
  IntervalProd.contains mp mpar
    && IntervalProd.contains (Detector.params d) dpar = true →
  self_src_position self mpar = Return (A1 src) →
  self_det_point_position self mpar dpar = Return (A1 pos) →
  length src = length pos →
  let vec := zip_with fsub src pos in
  det_to_src self mpar dpar normalized =
    Return (A1 (if normalized
                then map (λ x, fdiv x (Np.norm2 vec)) vec
                else vec)).
Proof.
  intros Hm Hd [Hin1 Hin2]%andb_true_iff Hsrc Hpos Hlen. simpl.
  unfold det_to_src, DivergentBeamGeometry.det_to_src.
  rewrite Hm. simpl. rewrite Hin1. simpl.
  unfold Geometry.det_params. rewrite Hd. simpl. rewrite Hin2. simpl.
  rewrite Hsrc, Hpos. simpl.
  rewrite sub_vectors by done. simpl.
  destruct normalized; [| done].
  unfold Np.linalg_norm_last. apply idiv_vector_scalar.
Qed.
End det_to_src.

(** C2: on a constructed geometry [det_to_src] raises the [ValueError] of
    the domain check when [mpar] is outside [motion_params] or [dpar] is
    outside [det_params]; with both inside, and the source position and the
    detector point position given by vectors [src] and [pos] of the same
    length, it fails in no other case and returns [src - pos], divided by
    its Euclidean norm when [normalized] is set. *)
Theorem DivergentBeamGeometry_det_to_src_domain_check
    (self_src_position : obj → ndarray → result ndarray)
    (self_det_point_position : obj → ndarray → ndarray → result ndarray)
    (ndim agrid : pyval) (mp : IntervalProd.t) (d : Detector.t)
    (self0 self : obj) (mpar dpar : ndarray) (normalized : bool) :
  DivergentBeamGeometry.__init__ ndim (PyIntervalProd mp) (PyDetector d)
    agrid self0 = (Return (), self) →
  let in_domain :=
    IntervalProd.contains mp mpar
    && IntervalProd.contains (Detector.params d) dpar in
  let outcome :=
    DivergentBeamGeometry.det_to_src self_src_position
      self_det_point_position self mpar dpar normalized in
  (in_domain = false → outcome = Raise ValueError)
  ∧ (∀ src pos,
       self_src_position self mpar = Return (A1 src) →
       self_det_point_position self mpar dpar = Return (A1 pos) →
       length src = length pos →
       let vec := zip_with fsub src pos in
       (raises outcome ↔ in_domain = false)
       ∧ (in_domain = true →
          outcome =
            Return (A1 (if normalized
                        then map (λ x, fdiv x (Np.norm2 vec)) vec
                        else vec)))).
Proof.
  intros (Hm & _ & Hd & _)%init_Return_fields. simpl. split.
  - intros Hout. by eapply det_to_src_outside.
  - intros src pos Hsrc Hpos Hlen.
    destruct (IntervalProd.contains mp mpar
              && IntervalProd.contains (Detector.params d) dpar) eqn:Hin.
    + erewrite det_to_src_inside by done. split; [| done].
      split; [by intros ?%not_raises_Return | done].
    + erewrite det_to_src_outside by done. split; [| done].
      split; [done | intros _; apply raises_Raise].
Qed.

Lemma sample_geometry_init :
  DivergentBeamGeometry.__init__ (PyInt 2) (PyIntervalProd sample_interval)
    (PyDetector sample_detector) PyNone fresh = (Return (), sample_geometry).
Proof. reflexivity. Qed.

Lemma sample_det_point_position_origin mpar dpar :
  sample_det_point_position sample_geometry mpar dpar
  = Return (A1 [Fin (0 + (1 * 0 + (0 * 0 + 0)))%R;
                Fin (0 + (0 * 0 + (1 * 0 + 0)))%R]).
Proof. reflexivity. Qed.

Lemma DivergentBeamGeometry_det_to_src_domain_check_witness :
  let in_domain :=
    IntervalProd.contains sample_interval (A0 (Fin 0))
    && IntervalProd.contains (Detector.params sample_detector) (A0 (Fin 2)) in
  let outcome :=
    DivergentBeamGeometry.det_to_src (sample_src_position [Fin 3; Fin 4])
      sample_det_point_position sample_geometry (A0 (Fin 0)) (A0 (Fin 2))
      true in
  (in_domain = false → outcome = Raise ValueError)
  ∧ (∀ src pos,
       sample_src_position [Fin 3; Fin 4] sample_geometry (A0 (Fin 0))
         = Return (A1 src) →
       sample_det_point_position sample_geometry (A0 (Fin 0)) (A0 (Fin 2))
         = Return (A1 pos) →
       length src = length pos →
       let vec := zip_with fsub src pos in
       (raises outcome ↔ in_domain = false)
       ∧ (in_domain = true →
          outcome = Return (A1 (map (λ x, fdiv x (Np.norm2 vec)) vec)))).
Proof.
  apply (DivergentBeamGeometry_det_to_src_domain_check
           (sample_src_position [Fin 3; Fin 4]) sample_det_point_position
           (PyInt 2) PyNone sample_interval sample_detector fresh
           sample_geometry (A0 (Fin 0)) (A0 (Fin 2)) true).
  reflexivity.
Defined.

Lemma sample_geometry_motion_params :
  DivergentBeamGeometry.motion_params sample_geometry
  = Return (PyIntervalProd sample_interval).
Proof. reflexivity. Qed.

Lemma sample_geometry_detector :
  DivergentBeamGeometry.detector sample_geometry
  = Return (PyDetector sample_detector).
Proof. reflexivity. Qed.

(** C1, as stated, fails: where the source lies on the detector point the
    difference vector is zero, the division by its norm is [0 / 0], and the
    vector returned for in-domain parameters has the norm NaN instead
    of 1. *)
Lemma DivergentBeamGeometry_det_to_src_zero_vector :
  let outcome :=
    DivergentBeamGeometry.det_to_src (sample_src_position [Fin 0; Fin 0])
      sample_det_point_position sample_geometry (A0 (Fin 0)) (A0 (Fin 1))
      true in
  IntervalProd.contains sample_interval (A0 (Fin 0)) = true
  ∧ IntervalProd.contains (Detector.params sample_detector) (A0 (Fin 1))
    = true
  ∧ outcome = Return (A1 [NaN; NaN])
  ∧ Np.linalg_norm_last (A1 [NaN; NaN]) = Return (A0 NaN)
  ∧ Np.linalg_norm_last (A1 [NaN; NaN]) ≠ Return (A0 (Fin 1)).
Proof.
  simpl.
  assert (IntervalProd.contains sample_interval (A0 (Fin 0)) = true) as H0
    by (apply in_unit_interval_Fin; lra).
  assert (IntervalProd.contains sample_interval (A0 (Fin 1)) = true) as H1
    by (apply in_unit_interval_Fin; lra).
  split_and!; try done.
  erewrite (det_to_src_inside _ _ _ sample_interval sample_detector);
    [ | done | done | | done | apply sample_det_point_position_origin | done].
  - do 2 f_equal.
    assert (zip_with fsub [Fin 0; Fin 0]
              [Fin (0 + (1 * 0 + (0 * 0 + 0))); Fin (0 + (0 * 0 + (1 * 0 + 0)))]
            = map Fin [0; 0]%R) as ->.
    { simpl. repeat f_equal; lra. }
    rewrite norm2_Fin.
    replace (sumsq [0; 0]%R) with 0%R by (unfold sumsq; simpl; lra).
    rewrite sqrt_0. cbn [map].
    by rewrite !fdiv_zero_by_zero.
  - simpl Detector.params. by rewrite H0, H1.
Qed.

Lemma sample_difference_in_normal_range :
  in_normal_range
    (zip_with Rminus [3; 4]%R
       [0 + (1 * 0 + (0 * 0 + 0)); 0 + (0 * 0 + (1 * 0 + 0))]%R).
Proof.
  apply in_normal_range_intro; simpl.
  - repeat apply Forall_cons_2; [| | apply Forall_nil_2];
      right; rewrite Rabs_right; lra.
  - intros [H _]%Forall_cons. lra.
  - unfold sumsq. simpl. lra.
Qed.

(** C1, amended: for parameters inside the domains at which the source
    position and the detector point position are finite vectors of the same
    length whose difference is in the normal range of float64 (it is not
    zero, its components are zero or of magnitude at least [2^-500], and the
    sum of its squares is at most [2^1000]), [det_to_src] with [normalized]
    set returns a finite vector of that length whose Euclidean norm along
    the trailing axis is 1. *)
Theorem DivergentBeamGeometry_det_to_src_unit_norm
    (self_src_position : obj → ndarray → result ndarray)
    (self_det_point_position : obj → ndarray → ndarray → result ndarray)
    (ndim agrid : pyval) (mp : IntervalProd.t) (d : Detector.t)
    (self0 self : obj) (mpar dpar : ndarray) (src pos : list R) :
  DivergentBeamGeometry.__init__ ndim (PyIntervalProd mp) (PyDetector d)
    agrid self0 = (Return (), self) →
  IntervalProd.contains mp mpar = true →
  IntervalProd.contains (Detector.params d) dpar = true →
  self_src_position self mpar = Return (A1 (map Fin src)) →
  self_det_point_position self mpar dpar = Return (A1 (map Fin pos)) →
  length src = length pos →
  in_normal_range (zip_with Rminus src pos) →
  ∃ u : list R,
    DivergentBeamGeometry.det_to_src self_src_position
      self_det_point_position self mpar dpar true
    = Return (A1 (map Fin u))
    ∧ length u = length src
    ∧ Np.linalg_norm_last (A1 (map Fin u)) = Return (A0 (Fin 1)).
Proof.
  intros (Hm & _ & Hd & _)%init_Return_fields Hin1 Hin2 Hsrc Hpos Hlen
    Hvec%in_normal_range_sumsq.
  set (vec := zip_with Rminus src pos) in *.
  exists (map (λ x, x / sqrt (sumsq vec))%R vec). split_and!.
  - erewrite det_to_src_inside; [| done | done | | done | done |].
    + rewrite zip_with_fsub_Fin. fold vec. rewrite norm2_Fin.
      by rewrite map_fdiv_Fin by by apply sqrt_sumsq_nonzero.
    + by rewrite Hin1, Hin2.
    + by rewrite !length_map.
  - rewrite length_map. unfold vec. rewrite length_zip_with. lia.
  - unfold Np.linalg_norm_last. rewrite norm2_Fin.
    rewrite normalized_unit by done. by rewrite sqrt_1.
Qed.

Lemma DivergentBeamGeometry_det_to_src_unit_norm_witness :
  ∃ u : list R,
    DivergentBeamGeometry.det_to_src (sample_src_position [Fin 3; Fin 4])
      sample_det_point_position sample_geometry (A0 (Fin 0)) (A0 (Fin 1))
      true
    = Return (A1 (map Fin u))
    ∧ length u = length [3; 4]%R
    ∧ Np.linalg_norm_last (A1 (map Fin u)) = Return (A0 (Fin 1)).
Proof.
  apply (DivergentBeamGeometry_det_to_src_unit_norm
           (sample_src_position [Fin 3; Fin 4]) sample_det_point_position
           (PyInt 2) PyNone sample_interval sample_detector fresh
           sample_geometry (A0 (Fin 0)) (A0 (Fin 1)) [3; 4]%R
           [0 + (1 * 0 + (0 * 0 + 0)); 0 + (0 * 0 + (1 * 0 + 0))]%R).
  - reflexivity.
  - apply in_unit_interval_Fin; lra.
  - apply in_unit_interval_Fin; lra.
  - reflexivity.
  - reflexivity.
  - reflexivity.
  - apply sample_difference_in_normal_range.
Defined.

(** ** Array-valued parameters

    With arrays of parameter values the difference vector has rank 2, one
    row per parameter value, and [np.linalg.norm(vec, axis=-1)] has rank 1:
    the in-place division broadcasts the norms along the trailing axis, over
    the components of each row and not over the rows. *)

Lemma det_to_src_inside_arrays
    (self_src_position : obj → ndarray → result ndarray)
    (self_det_point_position : obj → ndarray → ndarray → result ndarray)
    self mp d mpar dpar src pos vec :
  DivergentBeamGeometry.motion_params self = Return (PyIntervalProd mp) →
  DivergentBeamGeometry.detector self = Return (PyDetector d) →
  IntervalProd.contains mp mpar = true →
  IntervalProd.contains (Detector.params d) dpar = true →
  self_src_position self mpar = Return src →
  self_det_point_position self mpar dpar = Return pos →
  Np.sub src pos = Return vec →
  DivergentBeamGeometry.det_to_src self_src_position self_det_point_position
    self mpar dpar true
  = norms ← Np.linalg_norm_last vec; Np.idiv vec norms.
Proof.
  intros Hm Hd Hin1 Hin2 Hsrc Hpos Hsub.
  unfold DivergentBeamGeometry.det_to_src.
  rewrite Hm. simpl. rewrite Hin1. simpl.
  unfold Geometry.det_params. rewrite Hd. simpl. rewrite Hin2. simpl.
  rewrite Hsrc, Hpos. simpl. by rewrite Hsub.
Qed.

Lemma sample_interval_contains_0_1 :
  IntervalProd.contains sample_interval (A1 [Fin 0; Fin 1]) = true.
Proof.
  simpl. by rewrite (in_unit_interval_Fin 0), (in_unit_interval_Fin 1) by lra.
Qed.

Lemma sample_interval_contains_0_1_1 :
  IntervalProd.contains sample_interval (A1 [Fin 0; Fin 1; Fin 1]) = true.
Proof.
  simpl. by rewrite (in_unit_interval_Fin 0), (in_unit_interval_Fin 1) by lra.
Qed.

Lemma norm2_3_4 : Np.norm2 [Fin 3; Fin 4] = Fin 5.
Proof.
  change [Fin 3; Fin 4] with (map Fin [3; 4]%R).
  rewrite norm2_Fin. f_equal.
  replace (sumsq [3; 4]%R) with (5 * 5)%R by (unfold sumsq; simpl; lra).
  apply sqrt_square. lra.
Qed.

Lemma norm2_0_2 : Np.norm2 [Fin 0; Fin 2] = Fin 2.
Proof.
  change [Fin 0; Fin 2] with (map Fin [0; 2]%R).
  rewrite norm2_Fin. f_equal.
  replace (sumsq [0; 2]%R) with (2 * 2)%R by (unfold sumsq; simpl; lra).
  apply sqrt_square. lra.
Qed.

(** Two parameter values in the plane: the rows [(3, 4)] and [(0, 2)] have
    the norms 5 and 2, and the result divides the first component of every
    row by 5 and the second by 2; its first row [(3/5, 2)] is not a unit
    vector. *)
Lemma det_to_src_two_parameter_values :
  let outcome :=
    DivergentBeamGeometry.det_to_src
      (sample_src_positions [[Fin 3; Fin 4]; [Fin 0; Fin 2]])
      sample_det_point_position sample_geometry
      (A1 [Fin 0; Fin 1]) (A1 [Fin 0; Fin 1]) true in
  outcome = Return (A2 [[Fin (3 / 5); Fin (4 / 2)]; [Fin (0 / 5); Fin (2 / 2)]])
  ∧ Np.norm2 [Fin (3 / 5); Fin (4 / 2)] ≠ Fin 1.
Proof.
  simpl. split.
  - erewrite (det_to_src_inside_arrays _ _ _ sample_interval sample_detector
                _ _ _ _ (A2 [[Fin 3; Fin 4]; [Fin 0; Fin 2]]));
      [ | done | done | apply sample_interval_contains_0_1
        | apply sample_interval_contains_0_1 | done
        | apply sample_det_point_position_origin | ].
    + unfold Np.linalg_norm_last. cbn [map].
      rewrite norm2_3_4, norm2_0_2.
      transitivity
        (Return (A2 [[fdiv (Fin 3) (Fin 5); fdiv (Fin 4) (Fin 2)];
                     [fdiv (Fin 0) (Fin 5); fdiv (Fin 2) (Fin 2)]]));
        [reflexivity |].
      by rewrite (fdiv_Fin 3 5), (fdiv_Fin 4 2), (fdiv_Fin 0 5),
        (fdiv_Fin 2 2) by lra.
    + transitivity
        (Return (A2 [[fsub (Fin 3) (Fin (0 + (1 * 0 + (0 * 0 + 0))));
                      fsub (Fin 4) (Fin (0 + (0 * 0 + (1 * 0 + 0))))];
                     [fsub (Fin 0) (Fin (0 + (1 * 0 + (0 * 0 + 0))));
                      fsub (Fin 2) (Fin (0 + (0 * 0 + (1 * 0 + 0))))]]));
        [reflexivity |].
      simpl. repeat f_equal; lra.
  - change [Fin (3 / 5); Fin (4 / 2)] with (map Fin [3 / 5; 4 / 2]%R).
    rewrite norm2_Fin. intros [= H].
    assert (sumsq [3 / 5; 4 / 2]%R = 1%R) as Hs.
    { rewrite <- (sqrt_sqrt (sumsq _)) by apply sumsq_nonneg.
      rewrite H. lra. }
    unfold sumsq in Hs. simpl in Hs. lra.
Qed.

(** Three parameter values in the plane: three norms cannot be broadcast
    over rows of two components, and the division raises. *)
Lemma det_to_src_three_parameter_values :
  DivergentBeamGeometry.det_to_src
    (sample_src_positions [[Fin 1; Fin 0]; [Fin 0; Fin 1]; [Fin 1; Fin 1]])
    sample_det_point_position sample_geometry
    (A1 [Fin 0; Fin 1; Fin 1]) (A1 [Fin 0; Fin 1; Fin 1]) true
  = Raise ValueError.
Proof.
  erewrite (det_to_src_inside_arrays _ _ _ sample_interval sample_detector);
    [ | done | done | apply sample_interval_contains_0_1_1
      | apply sample_interval_contains_0_1_1 | done
      | apply sample_det_point_position_origin | reflexivity ].
  reflexivity.
Qed.

(** ** The constructor of [AxisOrientedGeometry] *)

Section AxisOrientedGeometry_init.
Import AxisOrientedGeometry.

Lemma init_vector v self :
  __init__ (A1 v) self =
    (if decide (length v = 3) then Return () else Raise ValueError,
     <["_axis" := PyArray (A1 (normalized_axis v))]> self).
Proof.
  unfold __init__, mbind, ctor_bind, lift, read, setattr, axis, getattr.
  simpl. rewrite lookup_insert_eq. simpl.
  unfold normalized_axis. rewrite length_map.
  destruct (decide (length v = 3)) as [Hl | Hl].
  - rewrite Hl. by rewrite bool_decide_eq_false_2 by (intros H; by apply H).
  - rewrite bool_decide_eq_true_2; [done |]. intros [= ?]. done.
Qed.

Lemma init_Return_vector raw self self' :
  __init__ raw self = (Return (), self') →
  ∃ a0 a1 a2,
    raw = A1 [a0; a1; a2]
    ∧ self' = <["_axis" := PyArray (A1 (normalized_axis [a0; a1; a2]))]> self.
Proof.
  destruct raw as [x | v | m].
  - unfold __init__, mbind, ctor_bind, lift, read, setattr, axis, getattr.
    simpl. rewrite lookup_insert_eq. simpl. done.
  - rewrite init_vector. case_decide as Hl; [| done].
    intros [= <-]. destruct v as [|a0 [|a1 [|a2 [|? ?]]]]; try done.
    by exists a0, a1, a2.
  - unfold __init__, mbind, ctor_bind, lift, read, setattr, axis, getattr.
    simpl. rewrite lookup_insert_eq. simpl.
    by rewrite bool_decide_eq_true_2.
Qed.
End AxisOrientedGeometry_init.

(** C7, as stated, fails: the zero vector has 3 components and is accepted,
    and the axis stored for it is [0 / 0] in every component; its norm is
    NaN, not 1. *)
Lemma AxisOrientedGeometry_init_zero_axis :
  let run := AxisOrientedGeometry.__init__ (A1 [Fin 0; Fin 0; Fin 0]) fresh in
  run.1 = Return ()
  ∧ AxisOrientedGeometry.axis run.2 = Return (PyArray (A1 [NaN; NaN; NaN]))
  ∧ Np.linalg_norm (A1 [NaN; NaN; NaN]) = NaN
  ∧ Np.linalg_norm (A1 [NaN; NaN; NaN]) ≠ Fin 1.
Proof.
  simpl. rewrite init_vector. simpl. split_and!; try done.
  unfold AxisOrientedGeometry.axis, getattr. rewrite lookup_insert_eq.
  do 3 f_equal. unfold normalized_axis.
  change [Fin 0; Fin 0; Fin 0] with (map Fin [0; 0; 0]%R).
  rewrite norm2_Fin.
  replace (sumsq [0; 0; 0]%R) with 0%R by (unfold sumsq; simpl; lra).
  rewrite sqrt_0. cbn [map].
  by rewrite !fdiv_zero_by_zero.
Qed.

(** C7, amended: the constructor first stores the input vector divided by
    its Euclidean norm and then checks the shape: it raises [ValueError]
    exactly when the vector does not have 3 components, and returns
    otherwise.  For a finite input vector in the normal range of float64 (it
    is not zero, its components are zero or of magnitude at least [2^-500],
    and the sum of its squares is at most [2^1000]) the stored axis is
    finite, has as many components as the input, and has unit norm. *)
Theorem AxisOrientedGeometry_init_normalizes (v : list float64) (self : obj) :
  let run := AxisOrientedGeometry.__init__ (A1 v) self in
  run.2 = <["_axis" := PyArray (A1 (normalized_axis v))]> self
  ∧ (raises run.1 ↔ length v ≠ 3)
  ∧ (length v ≠ 3 → run.1 = Raise ValueError)
  ∧ (length v = 3 → run.1 = Return ())
  ∧ (∀ r : list R,
       v = map Fin r → in_normal_range r →
       normalized_axis v = map Fin (map (λ x, x / sqrt (sumsq r))%R r)
       ∧ length (normalized_axis v) = length v
       ∧ Np.linalg_norm (A1 (normalized_axis v)) = Fin 1).
Proof.
  simpl. rewrite init_vector. simpl. split_and!.
  - done.
  - case_decide; split; try done.
    + by intros ?%not_raises_Return.
    + intros _. apply raises_Raise.
  - intros Hl. by rewrite decide_False.
  - intros Hl. by rewrite decide_True.
  - intros r -> Hs%in_normal_range_sumsq.
    assert (normalized_axis (map Fin r)
            = map Fin (map (λ x, x / sqrt (sumsq r))%R r)) as Heq.
    { unfold normalized_axis. rewrite norm2_Fin.
      by apply map_fdiv_Fin, sqrt_sumsq_nonzero. }
    split_and!; [done | |].
    + unfold normalized_axis. by rewrite length_map.
    + rewrite Heq. simpl. rewrite norm2_Fin.
      rewrite normalized_unit by done. by rewrite sqrt_1.
Qed.

(** The vector [(0, 0, 2)] is stored as [(0, 0, 1)]. *)
Lemma AxisOrientedGeometry_init_0_0_2 :
  AxisOrientedGeometry.__init__ (A1 [Fin 0; Fin 0; Fin 2]) fresh
  = (Return (), {[ "_axis" := PyArray (A1 [Fin 0; Fin 0; Fin 1]) ]}).
Proof.
  rewrite init_vector. simpl. f_equal.
  unfold normalized_axis.
  change [Fin 0; Fin 0; Fin 2] with (map Fin [0; 0; 2]%R).
  rewrite norm2_Fin.
  replace (sumsq [0; 0; 2]%R) with (2 * 2)%R by (unfold sumsq; simpl; lra).
  rewrite sqrt_square by lra.
  rewrite map_fdiv_Fin by lra. simpl.
  replace (0 / 2)%R with 0%R by lra. replace (2 / 2)%R with 1%R by lra.
  done.
Qed.

(** ** The rotation matrix of [AxisOrientedGeometry] *)

Section rotation_matrix.
Import AxisOrientedGeometry.
Variable self_motion_params : obj → result pyval.

Let rotation_matrix := rotation_matrix self_motion_params.

Lemma rotation_matrix_inside self angle θ ip a0 a1 a2 :
  axis self = Return (PyArray (A1 [a0; a1; a2])) →
  Np.to_float angle = Return θ →
  self_motion_params self = Return (PyIntervalProd ip) →
  IntervalProd.contains ip (A0 θ) = true →
  rotation_matrix self angle = Return (A2 (rodrigues a0 a1 a2 θ)).
Proof.
  intros Ha Hθ Hm Hin.
  unfold rotation_matrix, AxisOrientedGeometry.rotation_matrix.
  rewrite Hθ. simpl. rewrite Hm. simpl. rewrite Hin. simpl.
  rewrite Ha. reflexivity.
Qed.

Lemma rotation_matrix_outside self angle θ ip :
  Np.to_float angle = Return θ →
  self_motion_params self = Return (PyIntervalProd ip) →
  IntervalProd.contains ip (A0 θ) = false →
  rotation_matrix self angle = Raise ValueError.
Proof.
  intros Hθ Hm Hin.
  unfold rotation_matrix, AxisOrientedGeometry.rotation_matrix.
  rewrite Hθ. simpl. rewrite Hm. simpl. by rewrite Hin.
Qed.

Lemma rotation_matrix_Return self angle a0 a1 a2 M :
  axis self = Return (PyArray (A1 [a0; a1; a2])) →
  rotation_matrix self angle = Return M →
  ∃ θ, Np.to_float angle = Return θ ∧ M = A2 (rodrigues a0 a1 a2 θ).
Proof.
  intros Ha.
  unfold rotation_matrix, AxisOrientedGeometry.rotation_matrix.
  destruct (Np.to_float angle) as [θ|e]; simpl; [| done].
  destruct (self_motion_params self) as [mp|e]; simpl; [| done].
  destruct (py_contains mp (A0 θ)) as [[|]|e]; simpl; [| done | done].
  rewrite Ha. intros [= <-]. by exists θ.
Qed.
End rotation_matrix.

(** C3: for an axis that the constructor has accepted and an angle inside
    [motion_params], [rotation_matrix] returns the matrix of Rodrigues'
    formula for the stored axis. *)
Theorem AxisOrientedGeometry_rotation_matrix_rodrigues
    (self_motion_params : obj → result pyval) (raw : ndarray)
    (self0 self1 self : obj) (ip : IntervalProd.t) (angle : ndarray)
    (θ : float64) :
  AxisOrientedGeometry.__init__ raw self0 = (Return (), self1) →
  self !! "_axis" = self1 !! "_axis" →
  self_motion_params self = Return (PyIntervalProd ip) →
  Np.to_float angle = Return θ →
  IntervalProd.contains ip (A0 θ) = true →
  ∃ ax ay az,
    AxisOrientedGeometry.axis self = Return (PyArray (A1 [ax; ay; az]))
    ∧ AxisOrientedGeometry.rotation_matrix self_motion_params self angle
      = Return (A2 (rodrigues ax ay az θ)).
Proof.
  intros (a0 & a1 & a2 & -> & ->)%init_Return_vector Hax Hm Hθ Hin.
  rewrite lookup_insert_eq in Hax.
  destruct (normalized_axis [a0; a1; a2]) as [|ax [|ay [|az [|? ?]]]] eqn:Hn;
    try discriminate (f_equal length Hn).
  assert (AxisOrientedGeometry.axis self = Return (PyArray (A1 [ax; ay; az])))
    as Haxis by (unfold AxisOrientedGeometry.axis, getattr; by rewrite Hax).
  exists ax, ay, az. split; [done |].
  by eapply rotation_matrix_inside.
Qed.

Lemma AxisOrientedGeometry_rotation_matrix_rodrigues_witness :
  ∃ ax ay az,
    AxisOrientedGeometry.axis sample_axis_object
    = Return (PyArray (A1 [ax; ay; az]))
    ∧ AxisOrientedGeometry.rotation_matrix sample_motion_params
        sample_axis_object (A0 (Fin 1))
      = Return (A2 (rodrigues ax ay az (Fin 1))).
Proof.
  apply (AxisOrientedGeometry_rotation_matrix_rodrigues sample_motion_params
           (A1 [Fin 0; Fin 0; Fin 2]) fresh sample_axis_object
           sample_axis_object sample_interval (A0 (Fin 1)) (Fin 1)).
  - apply AxisOrientedGeometry_init_0_0_2.
  - reflexivity.
  - reflexivity.
  - reflexivity.
  - apply in_unit_interval_Fin; lra.
Defined.

(** ** The rotation matrix is a proper rotation *)

Lemma unit_norm_finite a0 a1 a2 :
  Np.norm2 [a0; a1; a2] = Fin 1 →
  ∃ x y z, a0 = Fin x ∧ a1 = Fin y ∧ a2 = Fin z
           ∧ (x * x + y * y + z * z = 1)%R.
Proof.
  unfold Np.norm2, fsum.
  destruct a0 as [x| | |], a1 as [y| | |], a2 as [z| | |]; simpl;
    try discriminate;
    try (unfold inf_signed;
         repeat match goal with
                | |- context [total_order_T ?r 0] =>
                    destruct (total_order_T r 0) as [[?|?]|?]; simpl
                end; discriminate).
  destruct (Rlt_dec _ _) as [|Hs]; [discriminate |].
  intros [= H]. exists x, y, z. split_and!; try done.
  apply Rnot_lt_le in Hs.
  pose proof (sqrt_sqrt _ Hs) as Hq. rewrite H in Hq. lra.
Qed.

Lemma rodrigues_orthogonal (x y z θ : R) :
  (x * x + y * y + z * z = 1)%R →
  let m := rodrigues (Fin x) (Fin y) (Fin z) (Fin θ) in
  Np.dot (A2 (Np.transpose m)) (A2 m) = Return (A2 (Np.eye 3))
  ∧ det3 m = Fin 1.
Proof.
  intros Hu. pose proof (sin2_cos2 θ) as Hsc. unfold Rsqr in Hsc.
  simpl. unfold Np.inner, fsum. simpl.
  set (c := cos θ) in *. set (s := sin θ) in *. clearbody c s.
  split.
  - change (Np.eye 3)
      with [[Fin 1; Fin 0; Fin 0]; [Fin 0; Fin 1; Fin 0]; [Fin 0; Fin 0; Fin 1]].
    repeat f_equal; nsatz.
  - unfold one. f_equal. nsatz.
Qed.

(** C4: for a stored axis of unit norm and a real angle at which
    [rotation_matrix] returns, the matrix returned is orthogonal, its
    transpose times itself being the identity, and its determinant is 1. *)
Theorem AxisOrientedGeometry_rotation_matrix_proper_rotation
    (self_motion_params : obj → result pyval) (self : obj)
    (angle : ndarray) (a0 a1 a2 : float64) (θ : R) (M : ndarray) :
  AxisOrientedGeometry.axis self = Return (PyArray (A1 [a0; a1; a2])) →
  Np.linalg_norm (A1 [a0; a1; a2]) = Fin 1 →
  Np.to_float angle = Return (Fin θ) →
  AxisOrientedGeometry.rotation_matrix self_motion_params self angle
    = Return M →
  ∃ m, M = A2 m
       ∧ Np.shape M = [3; 3]
       ∧ Np.dot (A2 (Np.transpose m)) (A2 m) = Return (A2 (Np.eye 3))
       ∧ det3 m = Fin 1.
Proof.
  intros Ha (x & y & z & -> & -> & -> & Hu)%unit_norm_finite Hθ Hrot.
  eapply rotation_matrix_Return in Hrot as (θ' & Hθ' & ->); [| done].
  rewrite Hθ in Hθ'. injection Hθ' as <-.
  exists (rodrigues (Fin x) (Fin y) (Fin z) (Fin θ)).
  split_and!; [done | done | by apply rodrigues_orthogonal..].
Qed.

Lemma norm2_0_0_1 : Np.norm2 [Fin 0; Fin 0; Fin 1] = Fin 1.
Proof.
  change [Fin 0; Fin 0; Fin 1] with (map Fin [0; 0; 1]%R).
  rewrite norm2_Fin. f_equal.
  replace (sumsq [0; 0; 1]%R) with 1%R by (unfold sumsq; simpl; lra).
  apply sqrt_1.
Qed.

Lemma AxisOrientedGeometry_rotation_matrix_proper_rotation_witness :
  ∃ m, A2 (rodrigues (Fin 0) (Fin 0) (Fin 1) (Fin 1)) = A2 m
       ∧ Np.shape (A2 (rodrigues (Fin 0) (Fin 0) (Fin 1) (Fin 1))) = [3; 3]
       ∧ Np.dot (A2 (Np.transpose m)) (A2 m) = Return (A2 (Np.eye 3))
       ∧ det3 m = Fin 1.
Proof.
  apply (AxisOrientedGeometry_rotation_matrix_proper_rotation
           sample_motion_params sample_axis_object (A0 (Fin 1))
           (Fin 0) (Fin 0) (Fin 1) 1).
  - reflexivity.
  - apply norm2_0_0_1.
  - reflexivity.
  - apply (rotation_matrix_inside _ _ _ _ sample_interval);
      [reflexivity | reflexivity | reflexivity |].
    apply in_unit_interval_Fin; lra.
Defined.

(** The sample cone beam geometry is a working geometry: inside the angle
    interval its detector point position is defined. *)
Lemma sample_cone_det_point_position_inside :
  returns (sample_cone_det_point_position sample_cone_geometry (A0 (Fin 0))
             (A0 (Fin 0))).
Proof.
  unfold sample_cone_det_point_position, Geometry.det_point_position.
  cbn [mbind result_bind].
  erewrite (rotation_matrix_inside _ _ _ (Fin 0) sample_interval);
    [ | reflexivity | reflexivity | reflexivity
      | apply in_unit_interval_Fin; lra ].
  eexists. reflexivity.
Qed.

(** * Further properties *)

(** ** Construction of a divergent beam geometry *)

Lemma init_Return_state ndim angle_intvl detector agrid self0 self :
  DivergentBeamGeometry.__init__ ndim angle_intvl detector agrid self0
    = (Return (), self) →
  self = <["_implementation_cache" := PyDict []]>
           (<["_ndim" := ndim]>
              (with_geometry_fields angle_intvl detector agrid self0)).
Proof.
  intros Hrun.
  destruct (DivergentBeamGeometry.is_interval angle_intvl) eqn:Hi;
    [| by rewrite init_not_interval in Hrun].
  pose proof (proj1 (is_interval_spec _) Hi) as (ip & -> & Hdim).
  destruct agrid as [| | | | |g| |];
    try (by rewrite init_not_tensor_grid in Hrun).
  - rewrite init_no_grid in Hrun by done. by injection Hrun as <-.
  - rewrite init_grid in Hrun by done.
    destruct (IntervalProd.contains_set ip g); [| done].
    by injection Hrun as <-.
Qed.

(** X1: on an object on which the constructor has returned, the properties
    [motion_params], [motion_grid], [detector] and [ndim] return the
    arguments of the constructor, [implementation_cache] is an empty
    dictionary, and every other attribute of the object is as it was before
    the call. *)
Theorem DivergentBeamGeometry_init_properties
    (ndim angle_intvl detector agrid : pyval) (self0 self : obj) :
  DivergentBeamGeometry.__init__ ndim angle_intvl detector agrid self0
    = (Return (), self) →
  DivergentBeamGeometry.motion_params self = Return angle_intvl
  ∧ DivergentBeamGeometry.motion_grid self = Return agrid
  ∧ DivergentBeamGeometry.detector self = Return detector
  ∧ Geometry.ndim self = Return ndim
  ∧ Geometry.implementation_cache self = Return (PyDict [])
  ∧ (∀ name : string,
       name ∉ ["_motion_params"; "_motion_grid"; "_detector"; "_ndim";
               "_implementation_cache"] →
       self !! name = self0 !! name).
Proof.
  intros ->%init_Return_state.
  unfold DivergentBeamGeometry.motion_params,
    DivergentBeamGeometry.motion_grid, DivergentBeamGeometry.detector,
    Geometry.ndim, Geometry.implementation_cache, getattr,
    with_geometry_fields.
  split_and!; try by simplify_map_eq.
  intros name Hname. rewrite !not_elem_of_cons in Hname.
  destruct Hname as (? & ? & ? & ? & ? & _).
  by rewrite !lookup_insert_ne.
Qed.

Lemma DivergentBeamGeometry_init_properties_witness :
  DivergentBeamGeometry.motion_params sample_geometry
    = Return (PyIntervalProd sample_interval)
  ∧ DivergentBeamGeometry.motion_grid sample_geometry = Return PyNone
  ∧ DivergentBeamGeometry.detector sample_geometry
    = Return (PyDetector sample_detector)
  ∧ Geometry.ndim sample_geometry = Return (PyInt 2)
  ∧ Geometry.implementation_cache sample_geometry = Return (PyDict [])
  ∧ (∀ name : string,
       name ∉ ["_motion_params"; "_motion_grid"; "_detector"; "_ndim";
               "_implementation_cache"] →
       sample_geometry !! name = fresh !! name).
Proof.
  apply (DivergentBeamGeometry_init_properties (PyInt 2)
           (PyIntervalProd sample_interval) (PyDetector sample_detector)
           PyNone fresh sample_geometry).
  reflexivity.
Defined.

(** X2: the constructor validates neither [ndim] nor [detector]: whether it
    returns or raises, and what it raises, depends on the angle domain and
    the grid only, not on these two arguments nor on the attributes that the
    object already has. *)
Theorem DivergentBeamGeometry_init_ignores_ndim_detector
    (ndim ndim' detector detector' angle_intvl agrid : pyval)
    (self self' : obj) :
  (DivergentBeamGeometry.__init__ ndim angle_intvl detector agrid self).1
  = (DivergentBeamGeometry.__init__ ndim' angle_intvl detector' agrid self').1.
Proof. by rewrite !init_outcome. Qed.

(** X3: [has_motion_sampling] of a constructed divergent beam geometry tells
    whether a grid was given to the constructor; with the default
    [motion_grid] of the base class it is false; and whenever it is false,
    reading [grid] raises [AttributeError]. *)
Theorem Geometry_has_motion_sampling_grid
    (self_detector self_motion_grid : obj → result pyval)
    (TensorGrid_append : TensorGrid.t → pyval → result pyval)
    (ndim angle_intvl detector agrid : pyval) (self0 self : obj) :
  DivergentBeamGeometry.__init__ ndim angle_intvl detector agrid self0
    = (Return (), self) →
  Geometry.has_motion_sampling DivergentBeamGeometry.motion_grid self
    = Return (negb (is_none agrid))
  ∧ (∀ other : obj,
       Geometry.has_motion_sampling Geometry.motion_grid other = Return false)
  ∧ (∀ other : obj,
       Geometry.has_motion_sampling self_motion_grid other = Return false →
       Geometry.grid self_detector self_motion_grid TensorGrid_append other
       = Raise AttributeError).
Proof.
  intros (_ & Hg & _)%init_Return_fields. split_and!.
  - unfold Geometry.has_motion_sampling. by rewrite Hg.
  - done.
  - intros other. unfold Geometry.has_motion_sampling.
    destruct (self_motion_grid other) as [g|e] eqn:Hm; simpl; [| done].
    intros [= Hnone]. apply negb_false_iff, is_none_spec in Hnone as ->.
    by apply grid_motion_grid_None.
Qed.

Lemma Geometry_has_motion_sampling_grid_witness :
  Geometry.has_motion_sampling DivergentBeamGeometry.motion_grid
    sample_geometry_with_grids
    = Return (negb (is_none (PyTensorGrid sample_grid_inside)))
  ∧ (∀ other : obj,
       Geometry.has_motion_sampling Geometry.motion_grid other = Return false)
  ∧ (∀ other : obj,
       Geometry.has_motion_sampling DivergentBeamGeometry.motion_grid other
         = Return false →
       Geometry.grid DivergentBeamGeometry.detector
         DivergentBeamGeometry.motion_grid sample_append other
       = Raise AttributeError).
Proof.
  apply (Geometry_has_motion_sampling_grid DivergentBeamGeometry.detector
           DivergentBeamGeometry.motion_grid sample_append (PyInt 2)
           (PyIntervalProd sample_interval)
           (PyDetector sample_detector_with_grid)
           (PyTensorGrid sample_grid_inside) fresh
           sample_geometry_with_grids).
  apply sample_geometry_with_grids_init.
Defined.

(** X4: the constructor accepts [None] as the detector; on the geometry it
    builds, [det_params] and [det_grid] raise [AttributeError], and
    [det_to_src] raises the [ValueError] of the domain check for a motion
    parameter outside the angle interval and [AttributeError] for one
    inside, before any position is computed. *)
Theorem DivergentBeamGeometry_without_detector
    (self_src_position : obj → ndarray → result ndarray)
    (self_det_point_position : obj → ndarray → ndarray → result ndarray)
    (ndim agrid : pyval) (mp : IntervalProd.t) (self0 self : obj)
    (mpar dpar : ndarray) (normalized : bool) :
  DivergentBeamGeometry.__init__ ndim (PyIntervalProd mp) PyNone agrid self0
    = (Return (), self) →
  Geometry.det_params DivergentBeamGeometry.detector self
    = Raise AttributeError
  ∧ Geometry.det_grid DivergentBeamGeometry.detector self
    = Raise AttributeError
  ∧ DivergentBeamGeometry.det_to_src self_src_position
      self_det_point_position self mpar dpar normalized
    = Raise (if IntervalProd.contains mp mpar then AttributeError
             else ValueError).
Proof.
  intros (Hm & _ & Hd & _)%init_Return_fields.
  unfold DivergentBeamGeometry.det_to_src, Geometry.det_params,
    Geometry.det_grid.
  rewrite Hm, Hd. simpl. split_and!; [done | done |].
  by destruct (IntervalProd.contains mp mpar).
Qed.

Lemma DivergentBeamGeometry_without_detector_witness :
  let self :=
    (DivergentBeamGeometry.__init__ (PyInt 2) (PyIntervalProd sample_interval)
       PyNone PyNone fresh).2 in
  Geometry.det_params DivergentBeamGeometry.detector self
    = Raise AttributeError
  ∧ Geometry.det_grid DivergentBeamGeometry.detector self
    = Raise AttributeError
  ∧ DivergentBeamGeometry.det_to_src (sample_src_position [Fin 3; Fin 4])
      sample_det_point_position self (A0 (Fin 0)) (A0 (Fin 0)) true
    = Raise (if IntervalProd.contains sample_interval (A0 (Fin 0))
             then AttributeError else ValueError).
Proof.
  apply (DivergentBeamGeometry_without_detector
           (sample_src_position [Fin 3; Fin 4]) sample_det_point_position
           (PyInt 2) PyNone sample_interval fresh).
  reflexivity.
Defined.

(** X5: for parameters inside the domains the exceptions of the two
    position methods pass through [det_to_src], the one of [src_position]
    first: when [src_position] raises, the result does not depend on
    [det_point_position]. *)
Theorem DivergentBeamGeometry_det_to_src_propagates
    (self_src_position : obj → ndarray → result ndarray)
    (self_det_point_position : obj → ndarray → ndarray → result ndarray)
    (ndim agrid : pyval) (mp : IntervalProd.t) (d : Detector.t)
    (self0 self : obj) (mpar dpar : ndarray) (normalized : bool) :
  DivergentBeamGeometry.__init__ ndim (PyIntervalProd mp) (PyDetector d)
    agrid self0 = (Return (), self) →
  IntervalProd.contains mp mpar = true →
  IntervalProd.contains (Detector.params d) dpar = true →
  let outcome :=
    DivergentBeamGeometry.det_to_src self_src_position
      self_det_point_position self mpar dpar normalized in
  (∀ e, self_src_position self mpar = Raise e → outcome = Raise e)
  ∧ (∀ e, returns (self_src_position self mpar) →
          self_det_point_position self mpar dpar = Raise e →
          outcome = Raise e)
  ∧ (returns outcome →
     returns (self_src_position self mpar)
     ∧ returns (self_det_point_position self mpar dpar)).
Proof.
  intros (Hm & _ & Hd & _)%init_Return_fields Hin1 Hin2. simpl.
  unfold DivergentBeamGeometry.det_to_src, Geometry.det_params.
  rewrite Hm, Hd. simpl. rewrite Hin1, Hin2. simpl. split_and!.
  - by intros e ->.
  - by intros e [src ->] ->.
  - destruct (self_src_position self mpar) as [src|e]; simpl;
      [| by intros ?%not_returns_Raise].
    destruct (self_det_point_position self mpar dpar) as [pos|e]; simpl;
      [| by intros ?%not_returns_Raise].
    intros _. split; apply returns_Return.
Qed.

Lemma DivergentBeamGeometry_det_to_src_propagates_witness :
  let outcome :=
    DivergentBeamGeometry.det_to_src (λ _ _, Raise IndexError)
      sample_det_point_position sample_geometry (A0 (Fin 0)) (A0 (Fin 1))
      true in
  (∀ e, @Raise ndarray IndexError = Raise e → outcome = Raise e)
  ∧ (∀ e, returns (@Raise ndarray IndexError) →
          sample_det_point_position sample_geometry (A0 (Fin 0)) (A0 (Fin 1))
            = Raise e →
          outcome = Raise e)
  ∧ (returns outcome →
     returns (@Raise ndarray IndexError)
     ∧ returns (sample_det_point_position sample_geometry (A0 (Fin 0))
                  (A0 (Fin 1)))).
Proof.
  apply (DivergentBeamGeometry_det_to_src_propagates
           (λ _ _, Raise IndexError) sample_det_point_position
           (PyInt 2) PyNone sample_interval sample_detector fresh
           sample_geometry (A0 (Fin 0)) (A0 (Fin 1)) true).
  - reflexivity.
  - apply in_unit_interval_Fin; lra.
  - apply in_unit_interval_Fin; lra.
Defined.

(** X6: the normalized direction is parallel to the displacement: for
    parameters inside the domains and finite positions whose difference is
    in the normal range of float64, the vector returned without
    normalization is the vector returned with normalization, scaled by the
    distance between the two positions. *)
Theorem DivergentBeamGeometry_det_to_src_parallel
    (self_src_position : obj → ndarray → result ndarray)
    (self_det_point_position : obj → ndarray → ndarray → result ndarray)
    (ndim agrid : pyval) (mp : IntervalProd.t) (d : Detector.t)
    (self0 self : obj) (mpar dpar : ndarray) (src pos : list R) :
  DivergentBeamGeometry.__init__ ndim (PyIntervalProd mp) (PyDetector d)
    agrid self0 = (Return (), self) →
  IntervalProd.contains mp mpar = true →
  IntervalProd.contains (Detector.params d) dpar = true →
  self_src_position self mpar = Return (A1 (map Fin src)) →
  self_det_point_position self mpar dpar = Return (A1 (map Fin pos)) →
  length src = length pos →
  in_normal_range (zip_with Rminus src pos) →
  ∃ raw unit : list R,
    DivergentBeamGeometry.det_to_src self_src_position
      self_det_point_position self mpar dpar false
    = Return (A1 (map Fin raw))
    ∧ DivergentBeamGeometry.det_to_src self_src_position
        self_det_point_position self mpar dpar true
      = Return (A1 (map Fin unit))
    ∧ raw = zip_with Rminus src pos
    ∧ raw = map (λ x, sqrt (sumsq raw) * x)%R unit
    ∧ (0 < sqrt (sumsq raw))%R.
Proof.
  intros (Hm & _ & Hd & _)%init_Return_fields Hin1 Hin2 Hsrc Hpos Hlen
    Hvec%in_normal_range_sumsq.
  set (vec := zip_with Rminus src pos) in *.
  pose proof (sqrt_sumsq_nonzero _ Hvec) as Hn.
  exists vec, (map (λ x, x / sqrt (sumsq vec))%R vec). split_and!.
  - erewrite det_to_src_inside; [| done | done | | done | done |].
    + by rewrite zip_with_fsub_Fin.
    + by rewrite Hin1, Hin2.
    + by rewrite !length_map.
  - erewrite det_to_src_inside; [| done | done | | done | done |].
    + rewrite zip_with_fsub_Fin. fold vec. rewrite norm2_Fin.
      by rewrite map_fdiv_Fin.
    + by rewrite Hin1, Hin2.
    + by rewrite !length_map.
  - done.
  - rewrite map_map. rewrite <- (map_id vec) at 1.
    apply map_ext. intros x. simpl. by field.
  - pose proof (sqrt_pos (sumsq vec)). lra.
Qed.

Lemma DivergentBeamGeometry_det_to_src_parallel_witness :
  ∃ raw unit : list R,
    DivergentBeamGeometry.det_to_src (sample_src_position [Fin 3; Fin 4])
      sample_det_point_position sample_geometry (A0 (Fin 0)) (A0 (Fin 1))
      false
    = Return (A1 (map Fin raw))
    ∧ DivergentBeamGeometry.det_to_src (sample_src_position [Fin 3; Fin 4])
        sample_det_point_position sample_geometry (A0 (Fin 0)) (A0 (Fin 1))
        true
      = Return (A1 (map Fin unit))
    ∧ raw = zip_with Rminus [3; 4]%R
              [0 + (1 * 0 + (0 * 0 + 0)); 0 + (0 * 0 + (1 * 0 + 0))]%R
    ∧ raw = map (λ x, sqrt (sumsq raw) * x)%R unit
    ∧ (0 < sqrt (sumsq raw))%R.
Proof.
  apply (DivergentBeamGeometry_det_to_src_parallel
           (sample_src_position [Fin 3; Fin 4]) sample_det_point_position
           (PyInt 2) PyNone sample_interval sample_detector fresh
           sample_geometry (A0 (Fin 0)) (A0 (Fin 1))).
  - reflexivity.
  - apply in_unit_interval_Fin; lra.
  - apply in_unit_interval_Fin; lra.
  - reflexivity.
  - reflexivity.
  - reflexivity.
  - apply sample_difference_in_normal_range.
Defined.

(** ** Normalization of an array of difference vectors *)

Lemma sequence_map_Return {A B} (f : A → B) (l : list A) :
  sequence (map (λ x, Return (f x)) l) = Return (map f l).
Proof. induction l as [|x l IH]; simpl; [done |]. by rewrite IH. Qed.

Lemma zip_with_replicate_same {A B C} (f : A → B → C) (l : list A) (y : B) :
  zip_with f l (replicate (length l) y) = map (λ x, f x y) l.
Proof. induction l as [|x l IH]; simpl; [done |]. by rewrite IH. Qed.

Lemma bcast_len_not_1 (n : nat) : n ≠ 1 → Np.bcast_len n 1 = Some n.
Proof.
  intros Hn. unfold Np.bcast_len.
  rewrite decide_False by done. rewrite decide_False by done.
  by rewrite decide_True.
Qed.

Lemma bcast1_length {A B C} (f : A → B → C) u v r :
  Np.bcast1 f u v = Return r →
  Np.bcast_len (length u) (length v) = Some (length r).
Proof.
  unfold Np.bcast1.
  destruct (Np.bcast_len (length u) (length v)) as [n|] eqn:Hb; [| done].
  intros [= <-]. f_equal. rewrite length_zip_with.
  unfold Np.bcast_len in Hb.
  assert (∀ {X} (l : list X), length l = n ∨ length l = 1 →
                              length (stretch n l) = n) as Hs.
  { intros X l [<- | Hl].
    - by rewrite stretch_same.
    - destruct l as [|x [|? ?]]; try done. simpl. apply length_replicate. }
  repeat case_decide; simplify_eq; rewrite !Hs; auto; lia.
Qed.

(** The division of [m], with at least two rows, by a vector [v] of rank 1
    pairs every row with [v]. *)
Lemma bcast2_rows_vector {A B C} (f : A → B → C) m (v : list B) :
  length m ≠ 1 →
  Np.bcast2 f m [v] = sequence (map (λ row, Np.bcast1 f row v) m).
Proof.
  intros Hm. unfold Np.bcast2. simpl length.
  rewrite bcast_len_not_1 by done.
  rewrite stretch_same by done. simpl.
  f_equal. clear Hm. induction m as [|row m IH]; simpl; [done |].
  by rewrite IH.
Qed.

Lemma idiv_single_row row :
  (norms ← Np.linalg_norm_last (A2 [row]); Np.idiv (A2 [row]) norms)
  = Return (A2 [map (λ x, fdiv x (Np.norm2 row)) row]).
Proof.
  change (Np.idiv (A2 [row]) (A1 [Np.norm2 row]) =
          Return (A2 [map (λ x, fdiv x (Np.norm2 row)) row])).
  unfold Np.idiv, Np.binop, Np.bcast2. simpl.
  assert (Np.bcast1 fdiv row [Np.norm2 row]
          = Return (map (λ x, fdiv x (Np.norm2 row)) row)) as ->.
  { unfold Np.bcast1, Np.bcast_len. simpl length.
    destruct (decide (length row = 1)) as [H1 | H1].
    - destruct row as [|x [|? ?]]; done.
    - rewrite decide_True by done.
      rewrite stretch_same by done. simpl.
      by rewrite zip_with_replicate_same. }
  simpl. rewrite decide_True; [done |]. by rewrite length_map.
Qed.

Lemma idiv_square m :
  2 ≤ length m →
  Forall (λ row, length row = length m) m →
  (norms ← Np.linalg_norm_last (A2 m); Np.idiv (A2 m) norms)
  = Return (A2 (map (λ row, zip_with fdiv row (map Np.norm2 m)) m)).
Proof.
  intros Hn Hrows.
  change (Np.idiv (A2 m) (A1 (map Np.norm2 m))
          = Return (A2 (map (λ row, zip_with fdiv row (map Np.norm2 m)) m))).
  unfold Np.idiv, Np.binop.
  rewrite bcast2_rows_vector by lia.
  set (ns := map Np.norm2 m).
  assert (map (λ row, Np.bcast1 fdiv row ns) m
          = map (λ row, Return (zip_with fdiv row ns)) m) as ->.
  { apply map_ext_Forall. eapply Forall_impl; [done |].
    intros row Hrow. simpl. apply bcast1_same_length.
    unfold ns. by rewrite length_map. }
  rewrite sequence_map_Return. simpl.
  rewrite decide_True; [done |].
  destruct m as [|row m']; [done |].
  rewrite length_map. cbn [head default map]. unfold Datatypes.id.
  rewrite length_zip_with. unfold ns. rewrite length_map.
  inversion Hrows as [|? ? Hrow _]; subst. rewrite Hrow.
  by rewrite Nat.min_id.
Qed.

Lemma idiv_rows_mismatch m d :
  2 ≤ length m →
  Forall (λ row, length row = d) m →
  length m ≠ d →
  (norms ← Np.linalg_norm_last (A2 m); Np.idiv (A2 m) norms)
  = Raise ValueError.
Proof.
  intros Hn Hrows Hd.
  change (Np.idiv (A2 m) (A1 (map Np.norm2 m)) = Raise ValueError).
  unfold Np.idiv.
  destruct (Np.binop fdiv (A2 m) (A1 (map Np.norm2 m))) as [q|e] eqn:Hq;
    simpl; [| by apply binop_Raise in Hq as ->].
  rewrite decide_False; [done |].
  unfold Np.binop in Hq. rewrite bcast2_rows_vector in Hq by lia.
  destruct m as [|row m']; [simpl in Hn; lia |].
  inversion Hrows as [|? ? Hrow Hrows']; subst.
  simpl in Hq.
  destruct (Np.bcast1 fdiv row (Np.norm2 row :: map Np.norm2 m'))
    as [r|e] eqn:Hr; simpl in Hq; [| done].
  destruct (sequence _) as [rs|e]; simpl in Hq; [| done].
  injection Hq as <-. simpl.
  apply bcast1_length in Hr. simpl in Hr. rewrite length_map in Hr.
  intros [= _ Hlen]. rewrite Hlen in Hr.
  unfold Np.bcast_len in Hr. simpl in Hd, Hn.
  repeat case_decide; simplify_eq; lia.
Qed.

(** X7: for an array with a single parameter value, where the difference of
    the positions is an array with one row, [det_to_src] with [normalized]
    set divides the row by its Euclidean norm. *)
Theorem DivergentBeamGeometry_det_to_src_single_row
    (self_src_position : obj → ndarray → result ndarray)
    (self_det_point_position : obj → ndarray → ndarray → result ndarray)
    (ndim agrid : pyval) (mp : IntervalProd.t) (d : Detector.t)
    (self0 self : obj) (mpar dpar src pos : ndarray) (row : list float64) :
  DivergentBeamGeometry.__init__ ndim (PyIntervalProd mp) (PyDetector d)
    agrid self0 = (Return (), self) →
  IntervalProd.contains mp mpar = true →
  IntervalProd.contains (Detector.params d) dpar = true →
  self_src_position self mpar = Return src →
  self_det_point_position self mpar dpar = Return pos →
  Np.sub src pos = Return (A2 [row]) →
  DivergentBeamGeometry.det_to_src self_src_position self_det_point_position
    self mpar dpar true
  = Return (A2 [map (λ x, fdiv x (Np.norm2 row)) row]).
Proof.
  intros (Hm & _ & Hd & _)%init_Return_fields Hin1 Hin2 Hsrc Hpos Hsub.
  erewrite det_to_src_inside_arrays by done.
  apply idiv_single_row.
Qed.

Lemma DivergentBeamGeometry_det_to_src_single_row_witness :
  DivergentBeamGeometry.det_to_src
    (sample_src_positions [[Fin 3; Fin 4]]) sample_det_point_at_origin
    sample_geometry (A1 [Fin 0]) (A1 [Fin 1]) true
  = Return (A2 [map (λ x, fdiv x (Np.norm2 [Fin (3 + - 0); Fin (4 + - 0)]))
                  [Fin (3 + - 0); Fin (4 + - 0)]]).
Proof.
  apply (DivergentBeamGeometry_det_to_src_single_row
           (sample_src_positions [[Fin 3; Fin 4]]) sample_det_point_at_origin
           (PyInt 2) PyNone sample_interval sample_detector fresh
           sample_geometry (A1 [Fin 0]) (A1 [Fin 1])
           (A2 [[Fin 3; Fin 4]]) (A1 [Fin 0; Fin 0])).
  - reflexivity.
  - simpl. by rewrite (in_unit_interval_Fin 0) by lra.
  - simpl. by rewrite (in_unit_interval_Fin 1) by lra.
  - reflexivity.
  - reflexivity.
  - reflexivity.
Defined.

(** X8: for an array of two or more parameter values, where the difference
    of the positions has one row of [d] components per parameter value,
    [det_to_src] with [normalized] set raises [ValueError] unless the number
    of rows is [d]; when it is [d], the component with index [j] of every
    row is divided by the norm of the row with index [j]. *)
Theorem DivergentBeamGeometry_det_to_src_rows
    (self_src_position : obj → ndarray → result ndarray)
    (self_det_point_position : obj → ndarray → ndarray → result ndarray)
    (ndim agrid : pyval) (mp : IntervalProd.t) (d : Detector.t)
    (self0 self : obj) (mpar dpar src pos : ndarray)
    (m : list (list float64)) (dim : nat) :
  DivergentBeamGeometry.__init__ ndim (PyIntervalProd mp) (PyDetector d)
    agrid self0 = (Return (), self) →
  IntervalProd.contains mp mpar = true →
  IntervalProd.contains (Detector.params d) dpar = true →
  self_src_position self mpar = Return src →
  self_det_point_position self mpar dpar = Return pos →
  Np.sub src pos = Return (A2 m) →
  Forall (λ row, length row = dim) m →
  2 ≤ length m →
  let outcome :=
    DivergentBeamGeometry.det_to_src self_src_position
      self_det_point_position self mpar dpar true in
  (length m ≠ dim → outcome = Raise ValueError)
  ∧ (length m = dim →
     outcome
     = Return (A2 (map (λ row, zip_with fdiv row (map Np.norm2 m)) m))).
Proof.
  intros (Hm & _ & Hd & _)%init_Return_fields Hin1 Hin2 Hsrc Hpos Hsub
    Hrows Hn. simpl.
  erewrite det_to_src_inside_arrays by done. split.
  - intros Hne. by eapply idiv_rows_mismatch.
  - intros <-. by apply idiv_square.
Qed.

Lemma DivergentBeamGeometry_det_to_src_rows_witness :
  let m := [[Fin (3 + - 0); Fin (4 + - 0)]; [Fin (0 + - 0); Fin (2 + - 0)]] in
  let outcome :=
    DivergentBeamGeometry.det_to_src
      (sample_src_positions [[Fin 3; Fin 4]; [Fin 0; Fin 2]])
      sample_det_point_at_origin sample_geometry
      (A1 [Fin 0; Fin 1]) (A1 [Fin 0; Fin 1]) true in
  (length m ≠ 2 → outcome = Raise ValueError)
  ∧ (length m = 2 →
     outcome
     = Return (A2 (map (λ row, zip_with fdiv row (map Np.norm2 m)) m))).
Proof.
  apply (DivergentBeamGeometry_det_to_src_rows
           (sample_src_positions [[Fin 3; Fin 4]; [Fin 0; Fin 2]])
           sample_det_point_at_origin
           (PyInt 2) PyNone sample_interval sample_detector fresh
           sample_geometry (A1 [Fin 0; Fin 1]) (A1 [Fin 0; Fin 1])
           (A2 [[Fin 3; Fin 4]; [Fin 0; Fin 2]]) (A1 [Fin 0; Fin 0])).
  - reflexivity.
  - apply sample_interval_contains_0_1.
  - apply sample_interval_contains_0_1.
  - reflexivity.
  - reflexivity.
  - reflexivity.
  - repeat constructor.
  - simpl. lia.
Defined.

(** ** Construction of the rotation axis *)

(** X9: the constructor of [AxisOrientedGeometry] rejects every input that
    is not of rank 1, a scalar or an array of rank 2 such as a row or a
    column with 3 elements, with [ValueError]; the attribute [_axis] has
    been set by then and stays on the object. *)
Theorem AxisOrientedGeometry_init_rejects_other_ranks
    (raw : ndarray) (self : obj) :
  (∀ v, raw ≠ A1 v) →
  let run := AxisOrientedGeometry.__init__ raw self in
  run.1 = Raise ValueError
  ∧ ∃ a, Np.binop fdiv raw (A0 (Np.linalg_norm raw)) = Return a
         ∧ run.2 = <["_axis" := PyArray a]> self
         ∧ AxisOrientedGeometry.axis run.2 = Return (PyArray a).
Proof.
  intros Hraw. simpl.
  destruct raw as [x | v | m]; [| by destruct (Hraw v) |].
  - unfold AxisOrientedGeometry.__init__, mbind, ctor_bind, lift, read,
      setattr, AxisOrientedGeometry.axis, getattr.
    simpl. rewrite lookup_insert_eq. simpl. split; [done |].
    eexists. split_and!; [done | done |].
    by rewrite ?lookup_insert_eq.
  - unfold AxisOrientedGeometry.__init__, mbind, ctor_bind, lift, read,
      setattr, AxisOrientedGeometry.axis, getattr.
    simpl. rewrite lookup_insert_eq. simpl.
    rewrite bool_decide_eq_true_2 by done. split; [done |].
    eexists. split_and!; [done | done |].
    unfold raise. simpl. by rewrite lookup_insert_eq.
Qed.

Lemma AxisOrientedGeometry_init_rejects_other_ranks_witness :
  let run :=
    AxisOrientedGeometry.__init__ (A2 [[Fin 0; Fin 0; Fin 1]]) fresh in
  run.1 = Raise ValueError
  ∧ ∃ a, Np.binop fdiv (A2 [[Fin 0; Fin 0; Fin 1]])
           (A0 (Np.linalg_norm (A2 [[Fin 0; Fin 0; Fin 1]]))) = Return a
         ∧ run.2 = <["_axis" := PyArray a]> fresh
         ∧ AxisOrientedGeometry.axis run.2 = Return (PyArray a).
Proof.
  apply (AxisOrientedGeometry_init_rejects_other_ranks
           (A2 [[Fin 0; Fin 0; Fin 1]]) fresh).
  intros v. discriminate.
Defined.

Lemma sumsq_mult (k : R) (r : list R) :
  sumsq (map (λ x, k * x)%R r) = (k * k * sumsq r)%R.
Proof.
  induction r as [|x r IH]; unfold sumsq in *; simpl; [lra |].
  rewrite IH. lra.
Qed.

Lemma normalized_axis_Fin (r : list R) :
  ¬ Forall (λ x, x = 0%R) r →
  normalized_axis (map Fin r) = map Fin (map (λ x, x / sqrt (sumsq r))%R r).
Proof.
  intros Hr. assert (sumsq r ≠ 0%R) as Hs by (intros ?%sumsq_zero; done).
  unfold normalized_axis. rewrite norm2_Fin.
  by apply map_fdiv_Fin, sqrt_sumsq_nonzero.
Qed.

Lemma sumsq_Forall_zero (l : list R) :
  Forall (λ x, x = 0%R) l → sumsq l = 0%R.
Proof.
  induction 1 as [|x l -> _ IH]; unfold sumsq in *; simpl; [done |].
  rewrite IH. lra.
Qed.



(** X10: the stored axis does not depend on the length of the input vector:
    a finite vector and its multiple by a positive factor, both in the
    normal range of float64, give the same run of the constructor, outcome
    and object. *)
Theorem AxisOrientedGeometry_init_scale_invariant
    (k : R) (r : list R) (self : obj) :
  (0 < k)%R →
  in_normal_range r →
  in_normal_range (map (λ x, k * x)%R r) →
  AxisOrientedGeometry.__init__ (A1 (map Fin (map (λ x, k * x)%R r))) self
  = AxisOrientedGeometry.__init__ (A1 (map Fin r)) self.
Proof.
  intros Hk (_ & Hnz & _) (_ & Hnz' & _). rewrite !init_vector.
  rewrite !length_map. f_equal. do 3 f_equal.
  rewrite !normalized_axis_Fin by done.
  f_equal. rewrite sumsq_mult.
  assert (sumsq r ≠ 0%R) as Hs by (intros ?%sumsq_zero; done).
  pose proof (sqrt_sumsq_nonzero _ Hs) as Hn.
  rewrite sqrt_mult by (pose proof (sumsq_nonneg r); nra).
  rewrite sqrt_square by lra.
  rewrite map_map. apply map_ext. intros x. simpl. field.
  split; [done | lra].
Qed.

Lemma AxisOrientedGeometry_init_scale_invariant_witness :
  AxisOrientedGeometry.__init__
    (A1 (map Fin (map (λ x, 2 * x)%R [1; 2; 2]%R))) fresh
  = AxisOrientedGeometry.__init__ (A1 (map Fin [1; 2; 2]%R)) fresh.
Proof.
  apply (AxisOrientedGeometry_init_scale_invariant 2 [1; 2; 2]%R fresh).
  - lra.
  - apply in_normal_range_intro.
    + repeat apply Forall_cons_2; [| | | apply Forall_nil_2];
        right; rewrite Rabs_right; lra.
    + intros [H _]%Forall_cons. lra.
    + unfold sumsq. simpl. lra.
  - apply in_normal_range_intro; simpl.
    + repeat apply Forall_cons_2; [| | | apply Forall_nil_2];
        right; rewrite Rabs_right; lra.
    + intros [H _]%Forall_cons. lra.
    + unfold sumsq. simpl. lra.
Defined.

(** X11: normalization is idempotent: the axis stored for a finite vector
    in the normal range of float64 is stored unchanged when it is given to
    the constructor again. *)
Theorem AxisOrientedGeometry_init_idempotent
    (r : list R) (self self' : obj) :
  in_normal_range r →
  let stored := normalized_axis (map Fin r) in
  (AxisOrientedGeometry.__init__ (A1 (map Fin r)) self).2
    = <["_axis" := PyArray (A1 stored)]> self
  ∧ (AxisOrientedGeometry.__init__ (A1 stored) self').2
    = <["_axis" := PyArray (A1 stored)]> self'.
Proof.
  intros (_ & Hr & _). simpl. rewrite !init_vector. simpl. split; [done |].
  do 3 f_equal.
  assert (sumsq r ≠ 0%R) as Hs by (intros ?%sumsq_zero; done).
  rewrite (normalized_axis_Fin r) by done.
  set (u := map (λ x, x / sqrt (sumsq r))%R r).
  assert (sumsq u = 1%R) as Hu by by apply normalized_unit.
  rewrite normalized_axis_Fin.
  - rewrite Hu, sqrt_1. f_equal. rewrite <- (map_id u) at 2.
    apply map_ext. intros x. simpl. lra.
  - intros Hz%sumsq_Forall_zero. lra.
Qed.

Lemma AxisOrientedGeometry_init_idempotent_witness :
  let stored := normalized_axis (map Fin [0; 0; 2]%R) in
  (AxisOrientedGeometry.__init__ (A1 (map Fin [0; 0; 2]%R)) fresh).2
    = <["_axis" := PyArray (A1 stored)]> fresh
  ∧ (AxisOrientedGeometry.__init__ (A1 stored) fresh).2
    = <["_axis" := PyArray (A1 stored)]> fresh.
Proof.
  apply (AxisOrientedGeometry_init_idempotent [0; 0; 2]%R fresh fresh).
  apply in_normal_range_intro.
  - repeat apply Forall_cons_2; [| | | apply Forall_nil_2];
      [by left | by left | right; rewrite Rabs_right; lra].
  - rewrite !Forall_cons. intros (_ & _ & H & _). lra.
  - unfold sumsq. simpl. lra.
Defined.

(** ** Failures of the rotation matrix *)

(** X12: the checks of [rotation_matrix] come in a fixed order: an angle
    array with more than one element raises [TypeError]; then an exception
    of the property [motion_params] of the combined class passes through;
    then an angle outside [motion_params] raises [ValueError], whatever the
    axis is; and only for an angle inside [motion_params] a missing
    attribute [_axis] raises [AttributeError]. *)
Theorem AxisOrientedGeometry_rotation_matrix_failures
    (self_motion_params : obj → result pyval) (self : obj) (angle : ndarray) :
  let outcome :=
    AxisOrientedGeometry.rotation_matrix self_motion_params self angle in
  (∀ x y l, angle = A1 (x :: y :: l) → outcome = Raise TypeError)
  ∧ (∀ θ e, Np.to_float angle = Return θ →
       self_motion_params self = Raise e → outcome = Raise e)
  ∧ (∀ θ ip, Np.to_float angle = Return θ →
       self_motion_params self = Return (PyIntervalProd ip) →
       IntervalProd.contains ip (A0 θ) = false →
       outcome = Raise ValueError)
  ∧ (∀ θ ip, Np.to_float angle = Return θ →
       self_motion_params self = Return (PyIntervalProd ip) →
       IntervalProd.contains ip (A0 θ) = true →
       self !! "_axis" = None →
       outcome = Raise AttributeError).
Proof.
  simpl. unfold AxisOrientedGeometry.rotation_matrix. split_and!.
  - by intros x y l ->.
  - intros θ e -> Hm. simpl. by rewrite Hm.
  - intros θ ip -> Hm Hin. simpl. rewrite Hm. simpl. by rewrite Hin.
  - intros θ ip -> Hm Hin Hax. simpl. rewrite Hm. simpl. rewrite Hin. simpl.
    unfold AxisOrientedGeometry.axis, getattr. by rewrite Hax.
Qed.

(** ** Algebra of the rotation matrices *)

(** X13: for a finite stored axis, of unit length or not, with components
    of magnitude at most [2^500], whose products are finite in float64, the
    rotation matrix of the angle 0 is the identity matrix. *)
Theorem AxisOrientedGeometry_rotation_matrix_zero_angle
    (self_motion_params : obj → result pyval) (self : obj)
    (ip : IntervalProd.t) (angle : ndarray) (x y z : R) :
  AxisOrientedGeometry.axis self
    = Return (PyArray (A1 [Fin x; Fin y; Fin z])) →
  products_finite [x; y; z] →
  Np.to_float angle = Return (Fin 0) →
  self_motion_params self = Return (PyIntervalProd ip) →
  IntervalProd.contains ip (A0 (Fin 0)) = true →
  AxisOrientedGeometry.rotation_matrix self_motion_params self angle
  = Return (A2 (Np.eye 3)).
Proof.
  intros Ha _ Hθ Hm Hin.
  erewrite rotation_matrix_inside by done.
  unfold rodrigues, entry. simpl. rewrite cos_0, sin_0.
  change (Np.eye 3)
    with [[Fin 1; Fin 0; Fin 0]; [Fin 0; Fin 1; Fin 0]; [Fin 0; Fin 0; Fin 1]].
  repeat f_equal; lra.
Qed.

Lemma AxisOrientedGeometry_rotation_matrix_zero_angle_witness :
  AxisOrientedGeometry.rotation_matrix sample_motion_params
    sample_axis_object (A0 (Fin 0))
  = Return (A2 (Np.eye 3)).
Proof.
  apply (AxisOrientedGeometry_rotation_matrix_zero_angle
           sample_motion_params sample_axis_object sample_interval
           (A0 (Fin 0)) 0 0 1).
  - reflexivity.
  - pose proof f64_large_ge_32.
    repeat apply Forall_cons_2; [| | | apply Forall_nil_2];
      (rewrite Rabs_right; lra).
  - reflexivity.
  - reflexivity.
  - apply in_unit_interval_Fin; lra.
Defined.

(** X14: the rotation leaves its axis fixed: for a stored axis of unit norm
    the matrix returned for a finite angle maps the axis to itself. *)
Theorem AxisOrientedGeometry_rotation_matrix_fixes_axis
    (self_motion_params : obj → result pyval) (self : obj)
    (angle : ndarray) (a0 a1 a2 : float64) (θ : R) (M : ndarray) :
  AxisOrientedGeometry.axis self = Return (PyArray (A1 [a0; a1; a2])) →
  Np.linalg_norm (A1 [a0; a1; a2]) = Fin 1 →
  Np.to_float angle = Return (Fin θ) →
  AxisOrientedGeometry.rotation_matrix self_motion_params self angle
    = Return M →
  Np.dot M (A1 [a0; a1; a2]) = Return (A1 [a0; a1; a2]).
Proof.
  intros Ha (x & y & z & -> & -> & -> & Hu)%unit_norm_finite Hθ Hrot.
  eapply rotation_matrix_Return in Hrot as (θ' & Hθ' & ->); [| done].
  rewrite Hθ in Hθ'. injection Hθ' as <-.
  simpl. unfold Np.inner, fsum. simpl.
  set (c := cos θ). set (s := sin θ). clearbody c s.
  repeat f_equal; nsatz.
Qed.

Lemma AxisOrientedGeometry_rotation_matrix_fixes_axis_witness :
  Np.dot (A2 (rodrigues (Fin 0) (Fin 0) (Fin 1) (Fin 1)))
    (A1 [Fin 0; Fin 0; Fin 1])
  = Return (A1 [Fin 0; Fin 0; Fin 1]).
Proof.
  apply (AxisOrientedGeometry_rotation_matrix_fixes_axis
           sample_motion_params sample_axis_object (A0 (Fin 1))
           (Fin 0) (Fin 0) (Fin 1) 1).
  - reflexivity.
  - apply norm2_0_0_1.
  - reflexivity.
  - apply (rotation_matrix_inside _ _ _ _ sample_interval);
      [reflexivity | reflexivity | reflexivity |].
    apply in_unit_interval_Fin; lra.
Defined.

(** The goals for the entries of two arrays of finite numbers. *)
Ltac array_entries :=
  repeat match goal with
         | |- Return _ = Return _ => apply (f_equal Return)
         | |- A2 _ = A2 _ => apply (f_equal A2)
         | |- A1 _ = A1 _ => apply (f_equal A1)
         | |- _ :: _ = _ :: _ => apply (f_equal2 cons)
         | |- [] = [] => reflexivity
         | |- Fin _ = Fin _ => apply (f_equal Fin)
         end.

Lemma rodrigues_compose (x y z α β : R) :
  (x * x + y * y + z * z = 1)%R →
  Np.dot (A2 (rodrigues (Fin x) (Fin y) (Fin z) (Fin α)))
    (A2 (rodrigues (Fin x) (Fin y) (Fin z) (Fin β)))
  = Return (A2 (rodrigues (Fin x) (Fin y) (Fin z) (Fin (α + β)))).
Proof.
  intros Hu.
  pose proof (sin2_cos2 α) as Ha. pose proof (sin2_cos2 β) as Hb.
  unfold Rsqr in Ha, Hb.
  unfold rodrigues, entry. simpl. unfold Np.inner, fsum. simpl.
  rewrite cos_plus, sin_plus.
  set (ca := cos α) in *. set (sa := sin α) in *.
  set (cb := cos β) in *. set (sb := sin β) in *. clearbody ca sa cb sb.
  array_entries; nsatz.
Qed.

Lemma rodrigues_transpose (x y z θ : R) :
  Np.transpose (rodrigues (Fin x) (Fin y) (Fin z) (Fin θ))
  = rodrigues (Fin x) (Fin y) (Fin z) (Fin (- θ)).
Proof.
  unfold rodrigues, entry, Np.transpose, Np.column. simpl.
  rewrite cos_neg, sin_neg.
  array_entries; ring.
Qed.

(** X15: rotations about the same axis compose by adding their angles: for
    a stored axis of unit norm, the matrix for the angle [α] times the
    matrix for the angle [β] is the matrix for the angle [α + β], whenever
    [rotation_matrix] returns for the three angles. *)
Theorem AxisOrientedGeometry_rotation_matrix_compose
    (self_motion_params : obj → result pyval) (self : obj)
    (a0 a1 a2 : float64) (α β : R) (angle_a angle_b angle_ab : ndarray)
    (Ma Mb Mab : ndarray) :
  AxisOrientedGeometry.axis self = Return (PyArray (A1 [a0; a1; a2])) →
  Np.linalg_norm (A1 [a0; a1; a2]) = Fin 1 →
  Np.to_float angle_a = Return (Fin α) →
  Np.to_float angle_b = Return (Fin β) →
  Np.to_float angle_ab = Return (Fin (α + β)) →
  AxisOrientedGeometry.rotation_matrix self_motion_params self angle_a
    = Return Ma →
  AxisOrientedGeometry.rotation_matrix self_motion_params self angle_b
    = Return Mb →
  AxisOrientedGeometry.rotation_matrix self_motion_params self angle_ab
    = Return Mab →
  Np.dot Ma Mb = Return Mab.
Proof.
  intros Ha (x & y & z & -> & -> & -> & Hu)%unit_norm_finite Hta Htb Htab
    Hra Hrb Hrab.
  eapply rotation_matrix_Return in Hra as (θa & Hθa & ->); [| done].
  eapply rotation_matrix_Return in Hrb as (θb & Hθb & ->); [| done].
  eapply rotation_matrix_Return in Hrab as (θab & Hθab & ->); [| done].
  rewrite Hta in Hθa. rewrite Htb in Hθb. rewrite Htab in Hθab.
  injection Hθa as <-. injection Hθb as <-. injection Hθab as <-.
  by apply rodrigues_compose.
Qed.

Lemma AxisOrientedGeometry_rotation_matrix_compose_witness :
  Np.dot (A2 (rodrigues (Fin 0) (Fin 0) (Fin 1) (Fin (1 / 4))))
    (A2 (rodrigues (Fin 0) (Fin 0) (Fin 1) (Fin (1 / 2))))
  = Return (A2 (rodrigues (Fin 0) (Fin 0) (Fin 1) (Fin (1 / 4 + 1 / 2)))).
Proof.
  apply (AxisOrientedGeometry_rotation_matrix_compose
           sample_motion_params sample_axis_object
           (Fin 0) (Fin 0) (Fin 1) (1 / 4) (1 / 2)
           (A0 (Fin (1 / 4))) (A0 (Fin (1 / 2)))
           (A0 (Fin (1 / 4 + 1 / 2)))).
  - reflexivity.
  - apply norm2_0_0_1.
  - reflexivity.
  - reflexivity.
  - reflexivity.
  - apply (rotation_matrix_inside _ _ _ _ sample_interval);
      [reflexivity | reflexivity | reflexivity |].
    apply in_unit_interval_Fin; lra.
  - apply (rotation_matrix_inside _ _ _ _ sample_interval);
      [reflexivity | reflexivity | reflexivity |].
    apply in_unit_interval_Fin; lra.
  - apply (rotation_matrix_inside _ _ _ _ sample_interval);
      [reflexivity | reflexivity | reflexivity |].
    apply in_unit_interval_Fin; lra.
Defined.

Lemma in_symmetric_interval_Fin (r : R) :
  (-1 <= r <= 1)%R →
  IntervalProd.contains sample_symmetric_interval (A0 (Fin r)) = true.
Proof.
  intros [H1 H2]. simpl.
  by rewrite !bool_decide_eq_true_2.
Qed.

(** X16: the rotation for the opposite angle is the transposed matrix: for
    a finite stored axis, the matrix returned for [- θ] is the transpose of
    the matrix returned for [θ]. *)
Theorem AxisOrientedGeometry_rotation_matrix_opposite_angle
    (self_motion_params : obj → result pyval) (self : obj)
    (x y z θ : R) (angle angle' : ndarray) (m : list (list float64))
    (M' : ndarray) :
  AxisOrientedGeometry.axis self
    = Return (PyArray (A1 [Fin x; Fin y; Fin z])) →
  Np.to_float angle = Return (Fin θ) →
  Np.to_float angle' = Return (Fin (- θ)) →
  AxisOrientedGeometry.rotation_matrix self_motion_params self angle
    = Return (A2 m) →
  AxisOrientedGeometry.rotation_matrix self_motion_params self angle'
    = Return M' →
  M' = A2 (Np.transpose m).
Proof.
  intros Ha Ht Ht' Hr Hr'.
  eapply rotation_matrix_Return in Hr as (θ1 & Hθ1 & Hm); [| done].
  eapply rotation_matrix_Return in Hr' as (θ2 & Hθ2 & ->); [| done].
  rewrite Ht in Hθ1. rewrite Ht' in Hθ2.
  injection Hθ1 as <-. injection Hθ2 as <-. injection Hm as ->.
  by rewrite rodrigues_transpose.
Qed.

Lemma AxisOrientedGeometry_rotation_matrix_opposite_angle_witness :
  A2 (rodrigues (Fin 0) (Fin 0) (Fin 1) (Fin (- 1)))
  = A2 (Np.transpose (rodrigues (Fin 0) (Fin 0) (Fin 1) (Fin 1))).
Proof.
  apply (AxisOrientedGeometry_rotation_matrix_opposite_angle
           sample_symmetric_motion_params sample_axis_object 0 0 1 1
           (A0 (Fin 1)) (A0 (Fin (- 1)))).
  - reflexivity.
  - reflexivity.
  - reflexivity.
  - apply (rotation_matrix_inside _ _ _ _ sample_symmetric_interval);
      [reflexivity | reflexivity | reflexivity |].
    apply in_symmetric_interval_Fin; lra.
  - apply (rotation_matrix_inside _ _ _ _ sample_symmetric_interval);
      [reflexivity | reflexivity | reflexivity |].
    apply in_symmetric_interval_Fin; lra.
Defined.

(** X17: the matrix rotates by the right hand rule: for a stored axis [a]
    of unit norm and a finite vector [v] with components of magnitude at
    most [2^500], the matrix returned for the angle [θ] maps [v] to
    [cos θ v + (1 - cos θ) (a . v) a + sin θ (a x v)], with the cross
    product [a x v = (ay vz - az vy, az vx - ax vz, ax vy - ay vx)]. *)
Theorem AxisOrientedGeometry_rotation_matrix_right_hand_rule
    (self_motion_params : obj → result pyval) (self : obj)
    (x y z θ v0 v1 v2 : R) (angle : ndarray) (M : ndarray) :
  AxisOrientedGeometry.axis self
    = Return (PyArray (A1 [Fin x; Fin y; Fin z])) →
  Np.linalg_norm (A1 [Fin x; Fin y; Fin z]) = Fin 1 →
  products_finite [v0; v1; v2] →
  Np.to_float angle = Return (Fin θ) →
  AxisOrientedGeometry.rotation_matrix self_motion_params self angle
    = Return M →
  let c := cos θ in
  let s := sin θ in
  let a_v := (x * v0 + y * v1 + z * v2)%R in
  Np.dot M (A1 [Fin v0; Fin v1; Fin v2])
  = Return (A1 [Fin (c * v0 + (1 - c) * a_v * x + s * (y * v2 - z * v1));
                Fin (c * v1 + (1 - c) * a_v * y + s * (z * v0 - x * v2));
                Fin (c * v2 + (1 - c) * a_v * z + s * (x * v1 - y * v0))]).
Proof.
  intros Ha _ _ Ht Hr.
  eapply rotation_matrix_Return in Hr as (θ' & Hθ' & ->); [| done].
  rewrite Ht in Hθ'. injection Hθ' as <-.
  unfold rodrigues, entry. simpl. unfold Np.inner, fsum. simpl.
  array_entries; ring.
Qed.

Lemma AxisOrientedGeometry_rotation_matrix_right_hand_rule_witness :
  let c := cos 1 in
  let s := sin 1 in
  let a_v := (0 * 1 + 0 * 0 + 1 * 0)%R in
  Np.dot (A2 (rodrigues (Fin 0) (Fin 0) (Fin 1) (Fin 1)))
    (A1 [Fin 1; Fin 0; Fin 0])
  = Return (A1 [Fin (c * 1 + (1 - c) * a_v * 0 + s * (0 * 0 - 1 * 0));
                Fin (c * 0 + (1 - c) * a_v * 0 + s * (1 * 1 - 0 * 0));
                Fin (c * 0 + (1 - c) * a_v * 1 + s * (0 * 0 - 0 * 1))]).
Proof.
  apply (AxisOrientedGeometry_rotation_matrix_right_hand_rule
           sample_motion_params sample_axis_object 0 0 1 1 1 0 0
           (A0 (Fin 1))).
  - reflexivity.
  - apply norm2_0_0_1.
  - pose proof f64_large_ge_32.
    repeat apply Forall_cons_2; [| | | apply Forall_nil_2];
      (rewrite Rabs_right; lra).
  - reflexivity.
  - apply (rotation_matrix_inside _ _ _ _ sample_interval);
      [reflexivity | reflexivity | reflexivity |].
    apply in_unit_interval_Fin; lra.
Defined.

(** ** The detector of a constructed geometry *)

(** X18: on a geometry constructed with a detector, [det_params] and
    [det_grid] are the parameters and the parameter grid of that detector,
    [None] when it has no grid, and [has_det_sampling] tells whether the
    detector has a parameter grid. *)
Theorem Geometry_det_properties
    (ndim angle_intvl agrid : pyval) (d : Detector.t) (self0 self : obj) :
  DivergentBeamGeometry.__init__ ndim angle_intvl (PyDetector d) agrid self0
    = (Return (), self) →
  Geometry.det_params DivergentBeamGeometry.detector self
    = Return (PyIntervalProd (Detector.params d))
  ∧ Geometry.det_grid DivergentBeamGeometry.detector self
    = Return (from_option PyTensorGrid PyNone (Detector.param_grid d))
  ∧ Geometry.has_det_sampling DivergentBeamGeometry.detector self
    = Return (bool_decide (is_Some (Detector.param_grid d))).
Proof.
  intros (_ & _ & Hd & _)%init_Return_fields.
  unfold Geometry.has_det_sampling, Geometry.det_params, Geometry.det_grid.
  rewrite Hd. simpl. split_and!; [done | done |].
  by destruct (Detector.param_grid d).
Qed.

Lemma Geometry_det_properties_witness :
  Geometry.det_params DivergentBeamGeometry.detector
    sample_geometry_with_grids
    = Return (PyIntervalProd (Detector.params sample_detector_with_grid))
  ∧ Geometry.det_grid DivergentBeamGeometry.detector
      sample_geometry_with_grids
    = Return (from_option PyTensorGrid PyNone
                (Detector.param_grid sample_detector_with_grid))
  ∧ Geometry.has_det_sampling DivergentBeamGeometry.detector
      sample_geometry_with_grids
    = Return (bool_decide
                (is_Some (Detector.param_grid sample_detector_with_grid))).
Proof.
  apply (Geometry_det_properties (PyInt 2) (PyIntervalProd sample_interval)
           (PyTensorGrid sample_grid_inside) sample_detector_with_grid
           fresh sample_geometry_with_grids).
  apply sample_geometry_with_grids_init.
Defined.

(** ** The detector moves rigidly *)




(** ** The zero axis *)

Lemma normalized_axis_zero :
  normalized_axis [Fin 0; Fin 0; Fin 0] = [NaN; NaN; NaN].
Proof.
  unfold normalized_axis.
  change [Fin 0; Fin 0; Fin 0] with (map Fin [0; 0; 0]%R).
  rewrite norm2_Fin.
  replace (sumsq [0; 0; 0]%R) with 0%R by (unfold sumsq; simpl; lra).
  rewrite sqrt_0. cbn [map].
  by rewrite !fdiv_zero_by_zero.
Qed.

(** X20: the zero vector is accepted as an axis without a warning, and on
    the object so constructed [rotation_matrix] returns, for every angle
    inside [motion_params], a matrix of shape (3, 3) whose nine entries are
    NaN; it does not raise. *)
Theorem AxisOrientedGeometry_zero_axis_rotation_matrix
    (self_motion_params : obj → result pyval) (self0 self : obj)
    (ip : IntervalProd.t) (angle : ndarray) (θ : float64) :
  self = (AxisOrientedGeometry.__init__ (A1 [Fin 0; Fin 0; Fin 0]) self0).2 →
  self_motion_params self = Return (PyIntervalProd ip) →
  Np.to_float angle = Return θ →
  IntervalProd.contains ip (A0 θ) = true →
  (AxisOrientedGeometry.__init__ (A1 [Fin 0; Fin 0; Fin 0]) self0).1
    = Return ()
  ∧ AxisOrientedGeometry.rotation_matrix self_motion_params self angle
    = Return (A2 (replicate 3 (replicate 3 NaN))).
Proof.
  rewrite init_vector. simpl. intros -> Hm Ht Hin. split; [done |].
  rewrite normalized_axis_zero in *.
  rewrite (rotation_matrix_inside _ _ _ θ ip NaN NaN NaN); [| | done..].
  - unfold rodrigues, entry. simpl. by destruct θ.
  - unfold AxisOrientedGeometry.axis, getattr. by rewrite lookup_insert_eq.
Qed.

Lemma AxisOrientedGeometry_zero_axis_rotation_matrix_witness :
  (AxisOrientedGeometry.__init__ (A1 [Fin 0; Fin 0; Fin 0]) fresh).1
    = Return ()
  ∧ AxisOrientedGeometry.rotation_matrix sample_motion_params
      (AxisOrientedGeometry.__init__ (A1 [Fin 0; Fin 0; Fin 0]) fresh).2
      (A0 (Fin 1))
    = Return (A2 (replicate 3 (replicate 3 NaN))).
Proof.
  apply (AxisOrientedGeometry_zero_axis_rotation_matrix sample_motion_params
           fresh _ sample_interval (A0 (Fin 1)) (Fin 1)).
  - reflexivity.
  - reflexivity.
  - reflexivity.
  - apply in_unit_interval_Fin; lra.
Defined.

(** ** The two constructors of a cone beam geometry *)

Lemma axis_init_frame (axis_arg : ndarray) :
  ∃ (r : result unit) (v : pyval), ∀ self : obj,
    AxisOrientedGeometry.__init__ axis_arg self = (r, <["_axis" := v]> self).
Proof.
  destruct axis_arg as [x | v | m].
  - eexists _, _. intros self.
    unfold AxisOrientedGeometry.__init__, mbind, ctor_bind, lift, read,
      setattr, AxisOrientedGeometry.axis, getattr.
    simpl. rewrite lookup_insert_eq. simpl. reflexivity.
  - eexists _, _. intros self. apply init_vector.
  - eexists _, _. intros self.
    unfold AxisOrientedGeometry.__init__, mbind, ctor_bind, lift, read,
      setattr, AxisOrientedGeometry.axis, getattr.
    simpl. rewrite lookup_insert_eq. simpl.
    rewrite bool_decide_eq_true_2 by done. reflexivity.
Qed.

(** X21: the constructors of [DivergentBeamGeometry] and of the mixin
    [AxisOrientedGeometry] can be called on an object in either order: each
    has the same outcome in both orders, and the object ends up with the
    same attributes, also when one of them or both raise. *)
Theorem AxisOrientedGeometry_init_commutes
    (ndim angle_intvl detector agrid : pyval) (axis_arg : ndarray)
    (self : obj) :
  let geometry_first :=
    DivergentBeamGeometry.__init__ ndim angle_intvl detector agrid self in
  let axis_second := AxisOrientedGeometry.__init__ axis_arg geometry_first.2 in
  let axis_first := AxisOrientedGeometry.__init__ axis_arg self in
  let geometry_second :=
    DivergentBeamGeometry.__init__ ndim angle_intvl detector agrid
      axis_first.2 in
  geometry_first.1 = geometry_second.1
  ∧ axis_second.1 = axis_first.1
  ∧ axis_second.2 = geometry_second.2.
Proof.
  destruct (axis_init_frame axis_arg) as (r & v & Haxis).
  simpl. rewrite !Haxis. simpl.
  split; [by rewrite !init_outcome |]. split; [done |].
  destruct (DivergentBeamGeometry.is_interval angle_intvl) eqn:Hi;
    [| by rewrite !init_not_interval].
  pose proof (proj1 (is_interval_spec _) Hi) as (ip & -> & Hdim).
  unfold with_geometry_fields.
  destruct agrid as [| | | | |g| |];
    try (rewrite !init_not_tensor_grid by done; unfold with_geometry_fields;
         simpl; by rewrite !(insert_insert_ne _ "_axis") by done).
  - rewrite !init_no_grid by done. unfold with_geometry_fields. simpl.
    by rewrite !(insert_insert_ne _ "_axis") by done.
  - rewrite !init_grid by done. unfold with_geometry_fields.
    destruct (IntervalProd.contains_set ip g); simpl;
      by rewrite !(insert_insert_ne _ "_axis") by done.
Qed.
